(** * tapestry_archive.cli: a shallow embedding and its verified properties

    The program walks a chain of "observation" pages, downloads the media of
    every page and accumulates a Markdown journal.  This development embeds
    [src/tapestry_archive/cli.py] function by function:

    - Python [str] values are lists of Unicode code points ([pystr]);
    - the remote site, the HTML parser and the process environment are the
      fields of a [World]; the interpreter's table of decimal digits and
      [datetime.strptime] are parameters of the program;
    - every observable effect of the program (standard output, HTTP requests,
      DOM queries, directory creation, file writes) is an [event]; a
      computation is a trace of events together with its outcome (a returned
      value, a raised exception, or an exhausted iteration budget for the
      unbounded [while] loop).

    The local file system is followed as far as the program itself decides
    it: which directories exist.  A [World] says which directories are there
    when the program starts, [os.makedirs] adds the directory it is given
    and its parents, and writing the journal into a directory that does not
    exist raises [FileNotFoundError].  Creating a directory, and writing a
    file in a directory that exists, are taken to succeed: rights, quotas
    and the limits on file names are outside the embedding, as are the log
    records ([LOGGER.info], [LOGGER.warning]).

    The first part holds the definitions, the second part the proofs. *)

From Stdlib Require Import List NArith ZArith Bool Ascii String Lia.
From Stdlib Require Import DecimalString.
From Stdlib Require DecimalZ DecimalPos.
Import ListNotations.

(** * Part I: the embedding *)

(** ** Python strings *)

Module PyStr.

(** A Python [str]: a sequence of Unicode code points. *)
Definition pystr := list N.

(** The code points of an ASCII source literal. *)
Definition py (s : string) : pystr :=
  map N_of_ascii (list_ascii_of_string s).

(** ['\n'] and [' '] *)
Definition LF : N := 10%N.
Definition SP : N := 32%N.

(** [Py_UNICODE_ISSPACE]: the characters removed by [str.strip()]. *)
Definition isspace (c : N) : bool :=
  ((9 <=? c) && (c <=? 13) || (28 <=? c) && (c <=? 32)
   || (c =? 133) || (c =? 160) || (c =? 5760)
   || (8192 <=? c) && (c <=? 8202)
   || (c =? 8232) || (c =? 8233) || (c =? 8239) || (c =? 8287)
   || (c =? 12288))%N.

(** The complement of the character class [[^\x00-\x7F]]. *)
Definition is_ascii (c : N) : bool := (c <=? 127)%N.

Fixpoint lstrip (s : pystr) : pystr :=
  match s with
  | [] => []
  | c :: r => if isspace c then lstrip r else s
  end.

Definition rstrip (s : pystr) : pystr := rev (lstrip (rev s)).

(** [s.strip()] *)
Definition strip (s : pystr) : pystr := rstrip (lstrip s).

(** [s.startswith(p)] *)
Fixpoint startswith (p s : pystr) : bool :=
  match p, s with
  | [], _ => true
  | _ :: _, [] => false
  | a :: p', b :: s' => (a =? b)%N && startswith p' s'
  end.

(** [sub in s] *)
Fixpoint contains (sub s : pystr) : bool :=
  startswith sub s ||
  match s with
  | [] => false
  | _ :: r => contains sub r
  end.

(** [s.replace(old, new)] for a non-empty [old]: non-overlapping
    occurrences, left to right.  [skip] counts the characters of a matched
    occurrence that are still to be dropped. *)
Fixpoint replace_from (old new s : pystr) (skip : nat) : pystr :=
  match s with
  | [] => []
  | c :: r =>
      match skip with
      | S k => replace_from old new r k
      | O =>
          if startswith old s
          then new ++ replace_from old new r (List.length old - 1)
          else c :: replace_from old new r O
      end
  end.

Definition replace (old new s : pystr) : pystr := replace_from old new s 0.

(** [re.sub(r'[^\x00-\x7F]', '', s)] *)
Definition re_sub_non_ascii (s : pystr) : pystr := filter is_ascii s.

(** [str(n)] / ["{}".format(n)] for a Python [int]. *)
Fixpoint digits_of_uint (d : Decimal.uint) : pystr :=
  match d with
  | Decimal.Nil => []
  | Decimal.D0 r => 48%N :: digits_of_uint r
  | Decimal.D1 r => 49%N :: digits_of_uint r
  | Decimal.D2 r => 50%N :: digits_of_uint r
  | Decimal.D3 r => 51%N :: digits_of_uint r
  | Decimal.D4 r => 52%N :: digits_of_uint r
  | Decimal.D5 r => 53%N :: digits_of_uint r
  | Decimal.D6 r => 54%N :: digits_of_uint r
  | Decimal.D7 r => 55%N :: digits_of_uint r
  | Decimal.D8 r => 56%N :: digits_of_uint r
  | Decimal.D9 r => 57%N :: digits_of_uint r
  end.

Definition str_of_int (z : Z) : pystr :=
  match Z.to_int z with
  | Decimal.Pos d => digits_of_uint d
  | Decimal.Neg d => 45%N :: digits_of_uint d
  end.

(** [repr(s)], what [%r] formats, for a string of code points below 256:
    enclosed in single quotes, or in double quotes when the string has a
    single quote and no double quote; the enclosing quote and the backslash
    are escaped with a backslash, tab, line feed and carriage return are
    written \t, \n and \r, and every other non-printable character (the
    control characters, U+007F to U+00A0 and U+00AD) as \x and two
    lower-case hexadecimal digits. *)
Definition hex_digit (n : N) : N := (if n <? 10 then 48 + n else 87 + n)%N.

Definition repr_char (quote c : N) : pystr :=
  (if (c =? quote) || (c =? 92) then [92; c]
   else if c =? 9 then [92; 116]
   else if c =? 10 then [92; 110]
   else if c =? 13 then [92; 114]
   else if (c <? 32) || (c =? 127) || (128 <=? c) && (c <=? 160) || (c =? 173)
        then [92; 120; hex_digit (c / 16); hex_digit (c mod 16)]
   else [c])%N.

Definition repr (s : string) : pystr :=
  let t := py s in
  let quote :=
    if existsb (N.eqb 39) t && negb (existsb (N.eqb 34) t) then 34%N else 39%N in
  quote :: flat_map (repr_char quote) t ++ [quote].

(** ["%0<w>d" % n]: decimal, left-padded with zeros to width [w]. *)
Definition zfill (w : nat) (s : pystr) : pystr :=
  repeat 48%N (w - List.length s) ++ s.

Definition pad (w : nat) (n : N) : pystr := zfill w (str_of_int (Z.of_N n)).

End PyStr.
Import PyStr.

(** ** Regular expressions of the program

    The two patterns the program searches with are embedded by what
    [re.search] computes for them.  [\d] on a [str] pattern accepts every
    Unicode decimal digit; the table is the interpreter's, so it is a
    parameter [isdigit] of the embedding. *)

Module Re.

(** The part of [s] before its first ['\n']: what [.*] can cover. *)
Fixpoint line_of (s : pystr) : pystr :=
  match s with
  | [] => []
  | c :: r => if (c =? LF)%N then [] else c :: line_of r
  end.

(** Split [s] at the LAST occurrence of [pat]: a greedy dot-star group, the
    literal [pat], and a second dot-star group, anchored at the start of a
    single line [s]. *)
Fixpoint rsplit (pat s : pystr) : option (pystr * pystr) :=
  match s with
  | [] => None
  | c :: r =>
      match rsplit pat r with
      | Some (a, b) => Some (c :: a, b)
      | None =>
          if startswith pat s then Some ([], skipn (List.length pat) s) else None
      end
  end.

(** [re.search] with the caption pattern of [get_metadata] (the literal
    "Authored by ", a dot-star group, the literal " added ", a dot-star
    group): the leftmost position where the literal prefix is found and, on
    the same line, " added " occurs later; group 1 is greedy.  Returns
    groups 1 and 2. *)
Fixpoint search_authored (s : pystr) : option (pystr * pystr) :=
  let here :=
    if startswith (py "Authored by ") s
    then rsplit (py " added ") (line_of (skipn 12 s))
    else None in
  match here with
  | Some g => Some g
  | None =>
      match s with
      | [] => None
      | _ :: r => search_authored r
      end
  end.

Section Digits.
Variable isdigit : N -> bool.

(** The longest run of digits at the start of [s]: the greedy digit-star
    group. *)
Fixpoint digits_prefix (s : pystr) : pystr :=
  match s with
  | [] => []
  | c :: r => if isdigit c then c :: digits_prefix r else []
  end.

(** [re.search] with the pattern of [get_next_observation_id] (the escaped
    [base], a slash, a digit-star group): [re.escape] makes [base] match
    literally and the group matches at every position, so the match is at
    the leftmost occurrence of [base] followed by a slash.  Returns group 1. *)
Fixpoint search_id (base s : pystr) : option pystr :=
  if startswith (base ++ py "/") s
  then Some (digits_prefix (skipn (List.length (base ++ py "/")) s))
  else
    match s with
    | [] => None
    | _ :: r => search_id base r
    end.

End Digits.
End Re.
Import Re.

(** ** Dates *)

Module DateTime.

(** The fields of a [datetime] the program formats. *)
Record datetime := mkdate
  { year : N; month : N; day : N; hour : N; minute : N }.

(** [%B] in the C locale. *)
Definition month_name (m : N) : pystr :=
  match m with
  | 1 => py "January" | 2 => py "February" | 3 => py "March"
  | 4 => py "April" | 5 => py "May" | 6 => py "June"
  | 7 => py "July" | 8 => py "August" | 9 => py "September"
  | 10 => py "October" | 11 => py "November" | 12 => py "December"
  | _ => []
  end%N.

(** [%I]: the hour on the 12-hour clock. *)
Definition hour12 (h : N) : N :=
  (if h mod 12 =? 0 then 12 else h mod 12)%N.

(** [d.strftime(fmt)] for the directives the program uses, in the C locale,
    as CPython 3.11 gives it on Linux, where the work is done by the C
    library (glibc); every other character of the format is copied.  [%Y] is
    the year in decimal, not zero-filled (the year 999 gives "999"); [%-d],
    a glibc extension, is the day of the month without padding. *)
Fixpoint strftime (d : datetime) (fmt : string) : pystr :=
  match fmt with
  | EmptyString => []
  | String "%" (String "Y" r) => str_of_int (Z.of_N (year d)) ++ strftime d r
  | String "%" (String "m" r) => pad 2 (month d) ++ strftime d r
  | String "%" (String "d" r) => pad 2 (day d) ++ strftime d r
  | String "%" (String "H" r) => pad 2 (hour d) ++ strftime d r
  | String "%" (String "M" r) => pad 2 (minute d) ++ strftime d r
  | String "%" (String "I" r) => pad 2 (hour12 (hour d)) ++ strftime d r
  | String "%" (String "p" r) =>
      (if (hour d <? 12)%N then py "AM" else py "PM") ++ strftime d r
  | String "%" (String "B" r) => month_name (month d) ++ strftime d r
  | String "%" (String "-" (String "d" r)) =>
      str_of_int (Z.of_N (day d)) ++ strftime d r
  | String c r => N_of_ascii c :: strftime d r
  end.

End DateTime.
Import DateTime.

(** ** Effects: exceptions, events, computations *)

Inductive exn :=
| LoggedOutException
| RuntimeError (msg : pystr)
| AttributeError            (* [None.text], [None.group] *)
| KeyError (key : string)   (* a missing attribute of a tag *)
| ValueError                (* [datetime.strptime] *)
| HTTPError (status : Z)    (* [response.raise_for_status()] *)
| RequestException          (* a transport failure of [requests.get] *)
| FileNotFoundError         (* a file written in a missing directory *)
| SystemExit (code : Z).    (* [sys.exit(code)] *)

Inductive event :=
| Print (line : pystr)
| HttpGet (url : pystr) (cookies : list (pystr * pystr)) (timeout : Z)
| Select (css : string)
| MakeDirs (path : pystr)
| WriteBytes (path : pystr) (data : list Byte.byte)
| WriteText (path : pystr) (text : pystr).

Inductive outcome (A : Type) :=
| Return (a : A)
| Raise (e : exn)
| OutOfFuel.
Arguments Return {A} a.
Arguments Raise {A} e.
Arguments OutOfFuel {A}.

(** A computation: the events it performed, in order, and how it ended. *)
Definition M (A : Type) : Type := (list event * outcome A)%type.

Definition ret {A} (a : A) : M A := ([], Return a).
Definition raise {A} (e : exn) : M A := ([], Raise e).
Definition emit (ev : event) : M unit := ([ev], Return tt).

Definition bind {A B} (m : M A) (f : A -> M B) : M B :=
  match m with
  | (t, Return a) => let (t', r) := f a in (t ++ t', r)
  | (t, Raise e) => (t, Raise e)
  | (t, OutOfFuel) => (t, OutOfFuel)
  end.

(** [try: m except <handles>: handler] *)
Definition try_except {A} (m : M A) (handles : exn -> bool) (handler : M A) : M A :=
  match m with
  | (t, Raise e) =>
      if handles e then let (t', r) := handler in (t ++ t', r) else (t, Raise e)
  | _ => m
  end.

Declare Scope py_scope.
Delimit Scope py_scope with py_scope.
Notation "x <- m ;; k" := (bind m (fun x => k))
  (at level 61, m at next level, right associativity) : py_scope.
Notation "m ;; k" := (bind m (fun _ => k))
  (at level 61, right associativity) : py_scope.
Open Scope py_scope.

(** ** The world outside the program *)

(** A [bs4] tag, as far as the program looks at it. *)
Record Tag := mkTag
  { text : pystr;
    attrs : list (string * pystr) }.

(** A parsed page: its answer to CSS queries, in document order. *)
Definition PageDocument := string -> list Tag.

Record Response := mkResponse
  { status_code : Z;
    resp_text : pystr;
    content : list Byte.byte }.

Record World := mkWorld
  { (** [requests.get(url, cookies=..)]: [None] is a transport failure *)
    http_get : pystr -> list (pystr * pystr) -> option Response;
    (** [BeautifulSoup(text, 'html.parser')] *)
    html_parser : pystr -> PageDocument;
    (** [os.getenv], after [dotenv.load_dotenv()] *)
    getenv : string -> option pystr;
    (** [os.path.isdir] when the program starts; a path that is not a
        directory is taken not to exist *)
    isdir : pystr -> bool }.

(** Python truthiness of a [str] and of an optional [str]. *)
Definition truthy (s : pystr) : bool :=
  match s with [] => false | _ :: _ => true end.

Definition truthy_opt (o : option pystr) : bool :=
  match o with None => false | Some s => truthy s end.

(** [doc.select(css)] and [doc.select_one(css)] *)
Definition select (doc : PageDocument) (css : string) : M (list Tag) :=
  emit (Select css) ;; ret (doc css).

Definition select_one (doc : PageDocument) (css : string) : M (option Tag) :=
  emit (Select css) ;; ret (hd_error (doc css)).

(** [tag.text] where [tag] may be [None] *)
Definition text_of (tag : option Tag) : M pystr :=
  match tag with
  | Some t => ret (text t)
  | None => raise AttributeError
  end.

Fixpoint assoc (key : string) (l : list (string * pystr)) : option pystr :=
  match l with
  | [] => None
  | (k, v) :: r => if String.eqb k key then Some v else assoc key r
  end.

(** [tag[key]] *)
Definition getitem (tag : Tag) (key : string) : M pystr :=
  match assoc key (attrs tag) with
  | Some v => ret v
  | None => raise (KeyError key)
  end.

(** [os.path.dirname] *)
Fixpoint upto_last_slash_rev (r : pystr) : pystr :=
  match r with
  | [] => []
  | c :: r' => if (c =? 47)%N then r else upto_last_slash_rev r'
  end.

Fixpoint rstrip_slash_rev (r : pystr) : pystr :=
  match r with
  | [] => []
  | c :: r' => if (c =? 47)%N then rstrip_slash_rev r' else r
  end.

Definition dirname (p : pystr) : pystr :=
  let head := upto_last_slash_rev (rev p) in
  if forallb (fun c => (c =? 47)%N) head then rev head
  else rev (rstrip_slash_rev head).

(** Equality of strings. *)
Fixpoint str_eqb (a b : pystr) : bool :=
  match a, b with
  | [], [] => true
  | x :: a', y :: b' => (x =? y)%N && str_eqb a' b'
  | _, _ => false
  end.

(** The path [p] is the directory [d] or lies below it. *)
Definition under (d p : pystr) : bool :=
  str_eqb p d || startswith (d ++ py "/") p.

(** The directories handed to [os.makedirs], in order. *)
Definition made_dirs (tr : list event) : list pystr :=
  flat_map (fun ev => match ev with MakeDirs p => [p] | _ => [] end) tr.

(** ** The program: [tapestry_archive/cli.py] *)

Definition COOKIE_NAME : pystr := py "tapestry_session".
Definition IMAGES_DIR : pystr := py "./images/".

Module EnvVarNames.
Definition TAPESTRY_COOKIE_VALUE : string := "TAPESTRY_COOKIE_VALUE".
Definition TAPESTRY_FIRST_OBSERVATION_ID : string := "TAPESTRY_FIRST_OBSERVATION_ID".
Definition TAPESTRY_NAME : string := "TAPESTRY_NAME".
Definition TAPESTRY_SCHOOL : string := "TAPESTRY_SCHOOL".
End EnvVarNames.

Record TapestryConfig := mkConfig
  { cookie_value : pystr;
    first_observation_id : pystr;
    name : pystr;
    school : pystr;
    base_url : pystr;
    timeout : Z }.

(** The dict built by [get_metadata]. *)
Record Metadata := mkMetadata
  { title : pystr;
    description : pystr;
    artist : pystr;
    date : datetime }.

(** The path of the journal file written by [run]. *)
Definition JOURNAL_PATH : pystr := py "./images/observations-info.md".

Definition get_file_name (metadata : Metadata) (index : Z) (video : bool) : pystr :=
  let file_name := strftime (date metadata) "./images/%Y-%m-%d-%H-%M-" in
  let file_name :=
    file_name ++ replace (py " ") (py "-")
                   (strip (re_sub_non_ascii (title metadata))) in
  let file_name :=
    file_name ++ (if (index >? 0)%Z then py "-" ++ str_of_int index else []) in
  let file_name := file_name ++ (if video then py ".mp4" else py ".jpeg") in
  file_name.

Definition capture_observation_info (metadata : Metadata) : pystr :=
  let md := py "## " ++ title metadata ++ [LF; LF] in
  let md :=
    md ++ py "### " ++ artist metadata ++ py ", "
       ++ strftime (date metadata) "%-d %B %Y %I:%M%p" ++ [LF; LF] in
  let md := md ++ description metadata ++ [LF; LF] in
  md.

Section Program.

(** The interpreter's table of decimal digits ([\d]). *)
Variable isdigit : N -> bool.
(** [datetime.strptime(s, '%d %b %Y %I:%M %p')]; [None] is a [ValueError]. *)
Variable strptime : pystr -> option datetime.
Variable W : World.

Definition get_required_env_value (env_var_name : string) : M pystr :=
  match getenv W env_var_name with
  | Some (c :: v) => ret (c :: v)
  | _ =>
      raise (RuntimeError
               (py "Environment variable " ++ repr env_var_name
                ++ py " is required"))
  end.

Definition from_env : M TapestryConfig :=
  school <- get_required_env_value EnvVarNames.TAPESTRY_SCHOOL ;;
  let base_url := py "https://tapestryjournal.com/s/" ++ school ++ py "/observation" in
  cookie_value <- get_required_env_value EnvVarNames.TAPESTRY_COOKIE_VALUE ;;
  first_observation_id <-
    get_required_env_value EnvVarNames.TAPESTRY_FIRST_OBSERVATION_ID ;;
  name <- get_required_env_value EnvVarNames.TAPESTRY_NAME ;;
  ret (mkConfig cookie_value first_observation_id name school base_url 60).

(** [requests.get(url, cookies=cookies, timeout=timeout)] *)
Definition requests_get (url : pystr) (cookies : list (pystr * pystr))
    (timeout : Z) : M Response :=
  emit (HttpGet url cookies timeout) ;;
  match http_get W url cookies with
  | Some r => ret r
  | None => raise RequestException
  end.

(** [response.raise_for_status()] *)
Definition raise_for_status (r : Response) : M unit :=
  if ((400 <=? status_code r) && (status_code r <? 600))%Z
  then raise (HTTPError (status_code r))
  else ret tt.

Definition get_doc (observation_id : pystr) (config : TapestryConfig)
    : M PageDocument :=
  let cookie := [(COOKIE_NAME, cookie_value config)] in
  let url := base_url config ++ py "/" ++ observation_id in
  response <- requests_get url cookie (timeout config) ;;
  raise_for_status response ;;
  ret (html_parser W (resp_text response)).

(** The [for alert in doc.select('.alert')] loop of [get_metadata]. *)
Fixpoint check_alerts (alerts : list Tag) : M unit :=
  match alerts with
  | [] => ret tt
  | alert :: rest =>
      let alert_text := strip (text alert) in
      if truthy alert_text
      then if contains (py "logged out") alert_text
           then raise LoggedOutException
           else check_alerts rest
      else check_alerts rest
  end.

Definition get_metadata (doc : PageDocument) : M Metadata :=
  alerts <- select doc ".alert" ;;
  check_alerts alerts ;;
  h1 <- select_one doc "h1" ;;
  h1_text <- text_of h1 ;;
  let title := strip h1_text in
  note <- select_one doc ".page-note p" ;;
  note_text <- text_of note ;;
  let description := replace [LF] [SP] (strip note_text) in
  caption <- select_one doc ".obs-metadata p" ;;
  caption_text <- text_of caption ;;
  match search_authored (strip caption_text) with
  | None => raise AttributeError
  | Some (group1, group2) =>
      let artist := group1 in
      match strptime group2 with
      | None => raise ValueError
      | Some date => ret (mkMetadata title description artist date)
      end
  end.

(** The body shared by [save_images_for_page] ([video = false]) and
    [save_videos_for_page] ([video = true]): the [for idx, item in
    enumerate(items)] loop from index [idx] on. *)
Fixpoint save_each (video : bool) (idx : Z) (items : list Tag)
    (metadata : Metadata) (config : TapestryConfig) : M unit :=
  match items with
  | [] => ret tt
  | item :: rest =>
      item_url <- getitem item "src" ;;
      response <- requests_get item_url [] (timeout config) ;;
      let item_data := content response in
      let file_name := get_file_name metadata idx video in
      emit (MakeDirs (dirname file_name)) ;;
      emit (WriteBytes file_name item_data) ;;
      save_each video (idx + 1) rest metadata config
  end.

Definition save_images_for_page (images : list Tag) (metadata : Metadata)
    (config : TapestryConfig) : M unit :=
  save_each false 0 images metadata config.

Definition save_videos_for_page (videos : list Tag) (metadata : Metadata)
    (config : TapestryConfig) : M unit :=
  save_each true 0 videos metadata config.

Definition save_media_for_page (doc : PageDocument) (config : TapestryConfig)
    : M pystr :=
  images <- select doc ".obs-media-gallery-main img" ;;
  videos <- select doc ".obs-media-gallery-main .obs-video-wrapper video source" ;;
  metadata <- get_metadata doc ;;
  save_images_for_page images metadata config ;;
  save_videos_for_page videos metadata config ;;
  ret (capture_observation_info metadata).

Definition get_next_observation_id (doc : PageDocument) (config : TapestryConfig)
    : M (option pystr) :=
  next_link <- select_one doc "li.previous a" ;;
  match next_link with
  | None => ret None
  | Some a =>
      href <- getitem a "href" ;;
      match search_id isdigit (base_url config) href with
      | None => raise (RuntimeError (py "observation id not found"))
      | Some group1 => ret (Some group1)
      end
  end.

(** The [while observation_id:] loop of [run]; [fuel] bounds the number of
    iterations. *)
Fixpoint run_loop (fuel : nat) (config : TapestryConfig)
    (observation_id : option pystr) (md : pystr) : M pystr :=
  match observation_id with
  | Some (c :: i) =>
      match fuel with
      | O => ([], OutOfFuel)
      | S fuel' =>
          emit (Print (c :: i)) ;;
          doc <- get_doc (c :: i) config ;;
          section <- save_media_for_page doc config ;;
          next <- get_next_observation_id doc config ;;
          run_loop fuel' config next (md ++ section)
      end
  | _ => ret md
  end.

(** The directory [d] exists once the directories [made] have been handed
    to [os.makedirs]: it was there when the program started, or it is one of
    them or a parent of one ([os.makedirs] creates the missing parents). *)
Definition isdir_after (made : list pystr) (d : pystr) : bool :=
  isdir W d || existsb (under d) made.

(** [Path(path).write_text(text, encoding='utf-8')] after the directories
    [made] were created: the file is created, or replaced, in the directory
    of [path]; when that directory does not exist the call raises
    [FileNotFoundError]. *)
Definition write_text (made : list pystr) (path text : pystr) : M unit :=
  if isdir_after made (dirname path)
  then emit (WriteText path text)
  else raise FileNotFoundError.

(** [run] never creates the directory of the journal itself: at the final
    write the directories that exist are those of the start and those the
    download loops of the walk have created. *)
Definition run (fuel : nat) (config : TapestryConfig) : M unit :=
  let observation_id := first_observation_id config in
  let md := py "# Tapestry observations for " ++ name config ++ [LF; LF] in
  let walk := run_loop fuel config (Some observation_id) md in
  md <- walk ;;
  write_text (made_dirs (fst walk)) JOURNAL_PATH md.

Definition is_LoggedOutException (e : exn) : bool :=
  match e with LoggedOutException => true | _ => false end.

Definition main (fuel : nat) : M unit :=
  config <- from_env ;;
  try_except (run fuel config) is_LoggedOutException
    (emit (Print (py "ERROR: You appear to be logged out. Check cookie value.")) ;;
     raise (SystemExit 1)).

End Program.

(** The exit status of the interpreter running the script: [0] when [main]
    returns, the code of a [SystemExit], [1] for any other exception that
    reaches the top level. *)
Definition exit_status (o : outcome unit) : option Z :=
  match o with
  | Return _ => Some 0%Z
  | Raise (SystemExit code) => Some code
  | Raise _ => Some 1%Z
  | OutOfFuel => None
  end.

(** ** What a trace shows *)

(** The page URLs requested: the requests that carry the session cookie. *)
Definition page_requests (tr : list event) : list pystr :=
  flat_map (fun ev => match ev with
                      | HttpGet url (_ :: _) _ => [url]
                      | _ => []
                      end) tr.

(** The lines printed on standard output. *)
Definition printed (tr : list event) : list pystr :=
  flat_map (fun ev => match ev with Print l => [l] | _ => [] end) tr.

(** The text files written, with their contents. *)
Definition text_writes (tr : list event) : list (pystr * pystr) :=
  flat_map (fun ev => match ev with WriteText p t => [(p, t)] | _ => [] end) tr.

(** The event writes the file at [path]. *)
Definition touches (path : pystr) (ev : event) : Prop :=
  match ev with
  | WriteBytes p _ | WriteText p _ => p = path
  | _ => False
  end.

(** The events of processing the media of one page. *)
Definition media_event (ev : event) : Prop :=
  match ev with
  | Select _ | MakeDirs _ | HttpGet _ [] _ => True
  | WriteBytes p _ => exists m i v, p = get_file_name m i v
  | _ => False
  end.

(** The events of one iteration on page [id], up to the navigation query. *)
Definition page_trace (cfg : TapestryConfig) (id : pystr) (ts : list event)
    : list event :=
  Print id
  :: HttpGet (base_url cfg ++ py "/" ++ id) [(COOKIE_NAME, cookie_value cfg)]
       (timeout cfg)
  :: ts ++ [Select "li.previous a"].

(** ** The vocabulary of the specification *)

(** The characters a derived file name may consist of: ASCII, not a space. *)
Definition name_char (c : N) : Prop := (c <= 127)%N /\ c <> SP.

Definition name_charb (c : N) : bool := ((c <=? 127) && negb (c =? SP))%N.

(** Slugification in the words of the specification: strip all non-ASCII
    characters, trim leading and trailing whitespace, replace spaces with
    hyphens. *)
Definition slugify_spec (t : pystr) : pystr :=
  map (fun c => if (c =? SP)%N then 45%N else c) (strip (filter is_ascii t)).

(** The timestamp as YYYY-MM-DD-HH-MM. *)
Definition timestamp_spec (d : datetime) : pystr :=
  pad 4 (year d) ++ py "-" ++ pad 2 (month d) ++ py "-" ++ pad 2 (day d)
  ++ py "-" ++ pad 2 (hour d) ++ py "-" ++ pad 2 (minute d).

(** The file name in the words of the specification. *)
Definition file_name_spec (m : Metadata) (ordinal : Z) (video : bool) : pystr :=
  IMAGES_DIR ++ timestamp_spec (date m) ++ py "-" ++ slugify_spec (title m)
  ++ (if (0 <? ordinal)%Z then py "-" ++ str_of_int ordinal else [])
  ++ (if video then py ".mp4" else py ".jpeg").

(** The specification's reading of C4: the name of every asset is built with
    the timestamp as YYYY-MM-DD-HH-MM. *)
Definition file_name_as_specified (m : Metadata) (ordinal : Z) (video : bool)
    : Prop :=
  get_file_name m ordinal video = file_name_spec m ordinal video.

(** The specification's names for the two ways extraction fails, as the
    exceptions [get_metadata] raises. *)
Definition SessionExpiredError (e : exn) : Prop := e = LoggedOutException.
Definition MetadataParseError (e : exn) : Prop :=
  e = AttributeError \/ e = ValueError.

(** A document passes the session-expiry check when no alert, stripped,
    mentions "logged out". *)
Definition passes_session_check (doc : PageDocument) : Prop :=
  forall alert, In alert (doc ".alert"%string) ->
                contains (py "logged out") (strip (text alert)) = false.

(** The specification's name for the failure of next-page extraction. *)
Definition NavigationParseError (e : exn) : Prop :=
  e = RuntimeError (py "observation id not found").

(** A journal entry in the words of the specification. *)
Record JournalEntry := mkEntry
  { heading : pystr; subheading : pystr; body : pystr }.

Definition render (e : JournalEntry) : pystr :=
  py "## " ++ heading e ++ [LF; LF]
  ++ py "### " ++ subheading e ++ [LF; LF]
  ++ body e ++ [LF; LF].

(** Every line break replaced by one space. *)
Definition collapse_line_breaks (s : pystr) : pystr :=
  map (fun c => if (c =? LF)%N then SP else c) s.

(** The first line of the journal. *)
Definition journal_heading (cfg : TapestryConfig) : pystr :=
  py "# Tapestry observations for " ++ name cfg ++ [LF; LF].

(** ** Properties of computations *)

(** [only P m]: every event of [m] satisfies [P]. *)
Definition only {A} (P : event -> Prop) (m : M A) : Prop := Forall P (fst m).

(** [raises Q m]: an exception raised by [m] satisfies [Q]. *)
Definition raises {A} (Q : exn -> Prop) (m : M A) : Prop :=
  forall e, snd m = Raise e -> Q e.

(** The exception is not a [SystemExit]. *)
Definition no_exit (e : exn) : Prop := forall code, e <> SystemExit code.

(** ** Chains of pages *)

(** A visited page: its identifier, its document and its journal section. *)
Record Visit := mkVisit
  { visit_id : pystr; visit_doc : PageDocument; visit_section : pystr }.

Section ChainDefinitions.
Variable isdigit : N -> bool.
Variable strptime : pystr -> option datetime.
Variable W : World.

Local Abbreviation get_next := (get_next_observation_id isdigit).
Local Abbreviation save_media := (save_media_for_page strptime W).
Local Abbreviation loop := (run_loop isdigit strptime W).

(** [chain cfg id pages]: [pages] is the chain of pages that starts at the
    identifier [id].  Every page is served and processed; the "previous"
    link of every page but the last yields the identifier of the next page
    of the chain; the last page has no "previous" link. *)
Inductive chain (cfg : TapestryConfig) : pystr -> list Visit -> Prop :=
| chain_last id doc section :
    truthy id = true ->
    snd (get_doc W id cfg) = Return doc ->
    snd (save_media doc cfg) = Return section ->
    hd_error (doc "li.previous a"%string) = None ->
    chain cfg id [mkVisit id doc section]
| chain_link id doc section a href next rest :
    truthy id = true ->
    snd (get_doc W id cfg) = Return doc ->
    snd (save_media doc cfg) = Return section ->
    hd_error (doc "li.previous a"%string) = Some a ->
    assoc "href" (attrs a) = Some href ->
    search_id isdigit (base_url cfg) href = Some next ->
    chain cfg next rest ->
    chain cfg id (mkVisit id doc section :: rest).

(** The events of the iteration on a visited page. *)
Definition visit_trace (cfg : TapestryConfig) (v : Visit) : list event :=
  page_trace cfg (visit_id v) (fst (save_media (visit_doc v) cfg)).

End ChainDefinitions.

(** ** The claims C1 and C2 as the specification words them *)

(** The specification's reading of C1: whenever a run aborts with an error,
    the journal has still been written. *)
Definition journal_flushed_on_abort (isdigit : N -> bool)
    (strptime : pystr -> option datetime) (W : World) (fuel : nat)
    (cfg : TapestryConfig) : Prop :=
  forall e,
    snd (run isdigit strptime W fuel cfg) = Raise e ->
    exists md, In (WriteText JOURNAL_PATH md) (fst (run isdigit strptime W fuel cfg)).

(** The session is detected as expired: the configuration loads and the
    walk raises the session-expiry exception. *)
Definition session_expired (isdigit : N -> bool)
    (strptime : pystr -> option datetime) (W : World) (fuel : nat) : Prop :=
  exists cfg,
    snd (from_env W) = Return cfg
    /\ snd (run isdigit strptime W fuel cfg) = Raise LoggedOutException.

(** The specification's reading of C2: non-zero when the session expired,
    zero in every other case. *)
Definition exits_zero_unless_expired (isdigit : N -> bool)
    (strptime : pystr -> option datetime) (W : World) (fuel : nat) : Prop :=
  let status := exit_status (snd (main isdigit strptime W fuel)) in
  (session_expired isdigit strptime W fuel -> status <> Some 0%Z)
  /\ (~ session_expired isdigit strptime W fuel -> status = Some 0%Z).

(** ** A sample site

    A concrete world used to run the program: a school "oak" whose journal
    has three observations, 3 -> 2 -> 1, linked by "previous" anchors.  The
    program starts in a directory that has no [images] directory yet. *)

Module Sample.

Fixpoint pystr_eqb (a b : pystr) : bool :=
  match a, b with
  | [], [] => true
  | x :: a', y :: b' => (x =? y)%N && pystr_eqb a' b'
  | _, _ => false
  end.

(** The ASCII digits. *)
Definition isdigit (c : N) : bool := ((48 <=? c) && (c <=? 57))%N.

Definition num2 (a b : N) : option N :=
  if isdigit a && isdigit b then Some ((a - 48) * 10 + (b - 48))%N else None.

Definition month_of_abbr (s : pystr) : option N :=
  let names := ["Jan"; "Feb"; "Mar"; "Apr"; "May"; "Jun";
                "Jul"; "Aug"; "Sep"; "Oct"; "Nov"; "Dec"]%string in
  let fix find (l : list string) (k : N) : option N :=
    match l with
    | [] => None
    | n :: r => if pystr_eqb s (py n) then Some k else find r (k + 1)%N
    end in
  find names 1%N.

Definition days_in_month (y m : N) : N :=
  (if m =? 2
   then if (y mod 4 =? 0) && (negb (y mod 100 =? 0) || (y mod 400 =? 0))
        then 29 else 28
   else if (m =? 4) || (m =? 6) || (m =? 9) || (m =? 11) then 30 else 31)%N.

(** [datetime.strptime(s, '%d %b %Y %I:%M %p')] on the zero-padded,
    single-spaced, capitalised form of the date ("02 May 2023 02:30 PM");
    every other input is rejected. *)
Definition strptime (s : pystr) : option datetime :=
  match s with
  | [d1; d2; s1; m1; m2; m3; s2; y1; y2; y3; y4; s3; h1; h2; c; n1; n2; s4; ap; mm] =>
      match num2 d1 d2, month_of_abbr [m1; m2; m3], num2 y1 y2, num2 y3 y4,
            num2 h1 h2, num2 n1 n2 with
      | Some d, Some m, Some yh, Some yl, Some h, Some n =>
          let y := (yh * 100 + yl)%N in
          if ((s1 =? 32) && (s2 =? 32) && (s3 =? 32) && (s4 =? 32) && (c =? 58)
              && ((ap =? 65) || (ap =? 80)) && (mm =? 77)
              && (1 <=? y) && (1 <=? d) && (d <=? days_in_month y m)
              && (1 <=? h) && (h <=? 12) && (n <=? 59))%N
          then Some (mkdate y m d
                       ((h mod 12) + (if (ap =? 80)%N then 12 else 0))%N n)
          else None
      | _, _, _, _, _, _ => None
      end
  | _ => None
  end.

Definition tag (t : string) : Tag := mkTag (py t) [].
Definition src (u : string) : Tag := mkTag [] [("src"%string, py u)].
Definition anchor (u : pystr) : Tag := mkTag (py "Previous") [("href"%string, u)].

(** A page by its parts. *)
Definition page (alerts : list Tag) (h1 note caption : list Tag)
    (images videos : list Tag) (previous : list Tag) : PageDocument :=
  fun css =>
    if (css =? ".alert")%string then alerts
    else if (css =? "h1")%string then h1
    else if (css =? ".page-note p")%string then note
    else if (css =? ".obs-metadata p")%string then caption
    else if (css =? ".obs-media-gallery-main img")%string then images
    else if (css =? ".obs-media-gallery-main .obs-video-wrapper video source")%string
         then videos
    else if (css =? "li.previous a")%string then previous
    else [].

Definition base : pystr := py "https://tapestryjournal.com/s/oak/observation".

Definition page3 : PageDocument :=
  page [] [tag " Art Day! "]
       [mkTag (py "We painted" ++ [LF] ++ py "all day") []]
       [tag "Authored by Ms Smith added 02 May 2023 02:30 PM"]
       [src "https://cdn.example/a.jpg"; src "https://cdn.example/b.jpg"]
       [src "https://cdn.example/v.mp4"]
       [anchor (base ++ py "/2")].

Definition page2 : PageDocument :=
  page [tag "  "] [tag "Sand play"] [tag "Castles"]
       [tag "Authored by Mr Jones added 28 Apr 2023 09:05 AM"]
       [] [] [anchor (base ++ py "/1")].

Definition page1 : PageDocument :=
  page [] [tag "First day"] [tag "Settling in"]
       [tag "Authored by Ms Smith added 17 Apr 2023 12:00 PM"]
       [src "https://cdn.example/c.jpg"] [] [].

(** A page shown to a visitor whose session has expired. *)
Definition expired : PageDocument :=
  page [tag " You have been logged out. "] [] [] [] [] [] [].

Definition html_parser (pages : list (pystr * PageDocument)) (t : pystr)
    : PageDocument :=
  match find (fun p => pystr_eqb (fst p) t) pages with
  | Some p => snd p
  | None => page [] [] [] [] [] [] []
  end.

Definition ok (body : string) : Response := mkResponse 200 (py body) [].

Definition http_get (site : list (pystr * Response)) (url : pystr)
    (cookies : list (pystr * pystr)) : option Response :=
  match find (fun p => pystr_eqb (fst p) url) site with
  | Some p => Some (snd p)
  | None => None
  end.

Definition getenv (k : string) : option pystr :=
  if (k =? "TAPESTRY_SCHOOL")%string then Some (py "oak")
  else if (k =? "TAPESTRY_COOKIE_VALUE")%string then Some (py "secret")
  else if (k =? "TAPESTRY_FIRST_OBSERVATION_ID")%string then Some (py "3")
  else if (k =? "TAPESTRY_NAME")%string then Some (py "Alice")
  else None.

Definition assets : list (pystr * Response) :=
  [(py "https://cdn.example/a.jpg", ok "");
   (py "https://cdn.example/b.jpg", ok "");
   (py "https://cdn.example/v.mp4", ok "");
   (py "https://cdn.example/c.jpg", ok "")].

Definition world (site : list (pystr * Response))
    (pages : list (pystr * PageDocument)) : World :=
  mkWorld (http_get (site ++ assets)) (html_parser pages) getenv
    (fun _ => false).

(** Page 3 with a "previous" link that leaves the journal. *)
Definition page_foreign : PageDocument :=
  page [] [tag "Art Day!"] [tag "We painted"]
       [tag "Authored by Ms Smith added 02 May 2023 02:30 PM"]
       [] [] [anchor (py "https://example.org/observation/2")].

(** Page 3 with a "previous" link to the bare listing: no identifier. *)
Definition page_bare : PageDocument :=
  page [] [tag "Art Day!"] [tag "We painted"]
       [tag "Authored by Ms Smith added 02 May 2023 02:30 PM"]
       [] [] [anchor (base ++ py "/")].

(** A page without a heading, and one whose caption has another shape. *)
Definition page_untitled : PageDocument :=
  page [] [] [tag "We painted"]
       [tag "Authored by Ms Smith added 02 May 2023 02:30 PM"] [] [] [].

Definition page_odd_caption : PageDocument :=
  page [tag "Welcome back"] [tag "Art Day!"] [tag "We painted"]
       [tag "Written by Ms Smith on 02 May 2023"] [] [] [].

Definition parsed : list (pystr * PageDocument) :=
  [(py "three", page3); (py "two", page2); (py "one", page1);
   (py "expired", expired); (py "foreign", page_foreign);
   (py "bare", page_bare)].

(** The whole journal is reachable. *)
Definition W : World :=
  world [(base ++ py "/3", ok "three"); (base ++ py "/2", ok "two");
         (base ++ py "/1", ok "one")] parsed.

(** Page 2 cannot be fetched. *)
Definition W_broken : World :=
  world [(base ++ py "/3", ok "three"); (base ++ py "/1", ok "one")] parsed.

(** The session expires after page 3 was served. *)
Definition W_expired : World :=
  world [(base ++ py "/3", ok "three"); (base ++ py "/2", ok "expired")] parsed.

(** Page 3 is served with a link that leaves the journal. *)
Definition W_foreign : World := world [(base ++ py "/3", ok "foreign")] parsed.

(** Page 3 is served with a link to the bare listing. *)
Definition W_bare : World :=
  world [(base ++ py "/3", ok "bare"); (base ++ py "/", ok "one")] parsed.

Definition config : TapestryConfig :=
  mkConfig (py "secret") (py "3") (py "Alice") (py "oak") base 60.

(** The journal section a page yields in a world, when it yields one. *)
Definition section_of (w : World) (doc : PageDocument) : pystr :=
  match snd (save_media_for_page strptime w doc config) with
  | Return s => s
  | _ => []
  end.

End Sample.

Definition sample_pages : list Visit :=
  [mkVisit (py "3") Sample.page3 (Sample.section_of Sample.W Sample.page3);
   mkVisit (py "2") Sample.page2 (Sample.section_of Sample.W Sample.page2);
   mkVisit (py "1") Sample.page1 (Sample.section_of Sample.W Sample.page1)].

(** ** Further vocabulary: configuration, downloads, errors *)

(** The variables [from_env] requires, in the order it reads them. *)
Definition required_variables : list string :=
  [EnvVarNames.TAPESTRY_SCHOOL; EnvVarNames.TAPESTRY_COOKIE_VALUE;
   EnvVarNames.TAPESTRY_FIRST_OBSERVATION_ID; EnvVarNames.TAPESTRY_NAME].

(** The variable is unset or empty: [not os.getenv(k)]. *)
Definition missingb (W : World) (k : string) : bool :=
  match getenv W k with
  | Some (_ :: _) => false
  | _ => true
  end.

(** The message of the error raised for a missing variable whose name has
    no quote, backslash or non-printable character. *)
Definition required_message (k : string) : pystr :=
  py "Environment variable '" ++ py k ++ py "' is required".

(** The URL of the page [id]. *)
Definition page_url (cfg : TapestryConfig) (id : pystr) : pystr :=
  base_url cfg ++ py "/" ++ id.

(** The session cookie sent with a page request. *)
Definition session_cookie (cfg : TapestryConfig) : list (pystr * pystr) :=
  [(COOKIE_NAME, cookie_value cfg)].

(** The binary files written, with their contents, in order. *)
Definition byte_writes (tr : list event) : list (pystr * list Byte.byte) :=
  flat_map (fun ev => match ev with WriteBytes p d => [(p, d)] | _ => [] end) tr.

(** The asset URLs requested: the requests without cookie. *)
Definition asset_requests (tr : list event) : list pystr :=
  flat_map (fun ev => match ev with HttpGet url [] _ => [url] | _ => [] end) tr.

(** The asset behind a tag: its [src] and what the site answers for it. *)
Definition served (W : World) (item : Tag) (url : pystr) (r : Response) : Prop :=
  assoc "src" (attrs item) = Some url /\ http_get W url [] = Some r.

(** The files of the responses [rs], numbered from [start]. *)
Fixpoint files_from (m : Metadata) (video : bool) (start : nat)
    (rs : list Response) : list (pystr * list Byte.byte) :=
  match rs with
  | [] => []
  | r :: rest =>
      (get_file_name m (Z.of_nat start) video, content r)
      :: files_from m video (S start) rest
  end.

(** The ways a page request fails: the transport, or a status from 400
    to 599. *)
Definition fetch_error (e : exn) : Prop :=
  e = RequestException
  \/ exists status, e = HTTPError status /\ (400 <= status < 600)%Z.

(** The ways the extraction of the metadata fails. *)
Definition extraction_error (e : exn) : Prop :=
  e = LoggedOutException \/ e = AttributeError \/ e = ValueError.

(** The ways the navigation fails. *)
Definition navigation_error (e : exn) : Prop :=
  e = KeyError "href" \/ e = RuntimeError (py "observation id not found").

(** The directories created are the directories of the files saved, one
    before each file, and the files saved are named by [get_file_name]. *)
Definition dirs_follow_files (tr : list event) : Prop :=
  made_dirs tr = map (fun f => dirname (fst f)) (byte_writes tr)
  /\ Forall (fun f => exists m i v, fst f = get_file_name m i v)
       (byte_writes tr).

(** Not the path separator. *)
Definition no_slash (c : N) : Prop := c <> 47%N.

(** The page of the visit [v] is served, and its journal section is the
    entry of the metadata extracted from it. *)
Definition visited (strptime : pystr -> option datetime) (W : World)
    (cfg : TapestryConfig) (v : Visit) : Prop :=
  snd (get_doc W (visit_id v) cfg) = Return (visit_doc v)
  /\ exists t m,
       get_metadata strptime (visit_doc v) = (t, Return m)
       /\ visit_section v = capture_observation_info m.

Module SampleExtra.

(** A page whose "previous" link leads back to itself. *)
Definition page_loop : PageDocument :=
  Sample.page [] [Sample.tag "Art Day!"] [Sample.tag "We painted"]
    [Sample.tag "Authored by Ms Smith added 02 May 2023 02:30 PM"]
    [] [] [Sample.anchor (Sample.base ++ py "/3")].

Definition parsed : list (pystr * PageDocument) :=
  (py "loop", page_loop) :: Sample.parsed.

(** Page 3 links to itself. *)
Definition W_loop : World :=
  Sample.world [(Sample.base ++ py "/3", Sample.ok "loop")] parsed.

(** Page 3 is answered with status 404. *)
Definition W_404 : World :=
  Sample.world [(Sample.base ++ py "/3", mkResponse 404 (py "three") [])]
    Sample.parsed.

(** The name of the journal's owner is not configured. *)
Definition W_anonymous : World :=
  mkWorld (http_get Sample.W) (html_parser Sample.W)
    (fun k => if (k =? "TAPESTRY_NAME")%string then Some []
              else getenv Sample.W k)
    (isdir Sample.W).

(** The asset [b.jpg] of page 3 cannot be fetched. *)
Definition W_lost_asset : World :=
  mkWorld
    (fun url cookies =>
       if Sample.pystr_eqb url (py "https://cdn.example/b.jpg") then None
       else http_get Sample.W url cookies)
    (html_parser Sample.W) (getenv Sample.W) (isdir Sample.W).

Definition metadata3 : Metadata :=
  mkMetadata (py "Art Day!") (py "We painted all day") (py "Ms Smith")
    (mkdate 2023 5 2 14 30).

End SampleExtra.

(** * Part II: proofs *)

(** ** The embedding at work *)

Example strip_ex : strip (py "  Art Day! ") = py "Art Day!".
Proof. reflexivity. Qed.

Example replace_ex : replace (py "ab") (py "-") (py "xababyab") = py "x--y-".
Proof. reflexivity. Qed.

Example repr_ex :
  repr "TAPESTRY_NAME" = py "'TAPESTRY_NAME'"
  /\ repr "it's" = [34; 105; 116; 39; 115; 34]%N
  /\ repr "a\b" = [39; 97; 92; 92; 98; 39]%N.
Proof. repeat split. Qed.

Example str_of_int_ex : str_of_int 120 = py "120" /\ pad 2 5 = py "05" /\ pad 4 2023 = py "2023".
Proof. repeat split; reflexivity. Qed.

Example search_authored_ex :
  search_authored (py "Authored by Ms added it added 02 May 2023 02:30 PM")
  = Some (py "Ms added it", py "02 May 2023 02:30 PM").
Proof. reflexivity. Qed.

Example strftime_ex :
  strftime (mkdate 2023 5 2 14 30) "./images/%Y-%m-%d-%H-%M-"
  = py "./images/2023-05-02-14-30-"
  /\ strftime (mkdate 2023 5 2 14 30) "%-d %B %Y %I:%M%p"
  = py "2 May 2023 02:30PM".
Proof. split; reflexivity. Qed.

Example dirname_ex :
  dirname (py "./images/2023-05-02-14-30-Art-Day!.jpeg") = py "./images"
  /\ dirname (py "/x") = py "/" /\ dirname (py "x") = [].
Proof. repeat split; reflexivity. Qed.

(** Only U+0020 is replaced by a hyphen: other whitespace inside a title is
    kept, and so are slashes. *)
Example file_name_keeps_tab_and_slash :
  get_file_name
    (mkMetadata (py "a" ++ [9%N] ++ py "b/c d") [] [] (mkdate 2023 5 2 14 30))
    0 true
  = py "./images/2023-05-02-14-30-a" ++ [9%N] ++ py "b/c-d.mp4".
Proof. reflexivity. Qed.

(** An anchor without [href] is a [KeyError]. *)
Example previous_link_without_href :
  get_next_observation_id Sample.isdigit
    (Sample.page [] [] [] [] [] [] [mkTag (py "Previous") []]) Sample.config
  = ([Select "li.previous a"], Raise (KeyError "href")).
Proof. reflexivity. Qed.

Example sample_from_env :
  from_env Sample.W = ([], Return Sample.config).
Proof. reflexivity. Qed.

Example sample_strptime :
  Sample.strptime (py "02 May 2023 02:30 PM") = Some (mkdate 2023 5 2 14 30)
  /\ Sample.strptime (py "17 Apr 2023 12:00 PM") = Some (mkdate 2023 4 17 12 0)
  /\ Sample.strptime (py "30 Feb 2023 12:00 PM") = None.
Proof. repeat split; reflexivity. Qed.

Example sample_run :
  let r := run Sample.isdigit Sample.strptime Sample.W 10 Sample.config in
  snd r = Return tt
  /\ printed (fst r) = [py "3"; py "2"; py "1"]
  /\ page_requests (fst r)
     = [Sample.base ++ py "/3"; Sample.base ++ py "/2"; Sample.base ++ py "/1"]
  /\ List.length (text_writes (fst r)) = 1%nat.
Proof. vm_compute. repeat split. Qed.

(** ** Facts about strings *)

Section StringFacts.

Lemma startswith_app (p s : pystr) : startswith p (p ++ s) = true.
Proof.
  induction p as [|a p IH]; simpl; [reflexivity|].
  now rewrite N.eqb_refl.
Qed.

Lemma startswith_spec (p s : pystr) :
  startswith p s = true <-> exists r, s = p ++ r.
Proof.
  split.
  - revert s; induction p as [|a p IH]; intros s H.
    + now exists s.
    + destruct s as [|b s]; simpl in H; [discriminate|].
      apply andb_prop in H as [Hab H]. apply N.eqb_eq in Hab; subst b.
      destruct (IH _ H) as [r ->]. now exists r.
  - intros [r ->]. apply startswith_app.
Qed.

Lemma contains_startswith (p s : pystr) :
  startswith p s = true -> contains p s = true.
Proof. destruct s; simpl; intros ->; reflexivity. Qed.

Lemma contains_spec (p s : pystr) :
  contains p s = true <-> exists a b, s = a ++ p ++ b.
Proof.
  split.
  - induction s as [|c s IH]; simpl; intros H.
    + rewrite orb_false_r in H. apply startswith_spec in H as [r Hr].
      now exists [], r.
    + apply orb_prop in H as [H|H].
      * apply startswith_spec in H as [r Hr]. now exists [], r.
      * destruct (IH H) as (a & b & ->). now exists (c :: a), b.
  - intros (a & b & ->). induction a as [|c a IH].
    + cbn [app]. apply contains_startswith, startswith_app.
    + simpl. rewrite IH. apply orb_true_r.
Qed.

Lemma replace_single (a b : N) (s : pystr) :
  replace [a] [b] s = map (fun c => if (c =? a)%N then b else c) s.
Proof.
  unfold replace. induction s as [|c s IH]; [reflexivity|].
  simpl. rewrite andb_true_r, (N.eqb_sym a c).
  destruct (c =? a)%N; simpl; now rewrite IH.
Qed.

Lemma Forall_lstrip (P : N -> Prop) (s : pystr) :
  Forall P s -> Forall P (lstrip s).
Proof.
  induction 1 as [|c s Hc Hs IH]; simpl; [constructor|].
  destruct (isspace c); [exact IH | now constructor].
Qed.

Lemma Forall_strip (P : N -> Prop) (s : pystr) :
  Forall P s -> Forall P (strip s).
Proof.
  intros H. unfold strip, rstrip.
  apply Forall_rev, Forall_lstrip, Forall_rev, Forall_lstrip, H.
Qed.

Lemma Forall_digits_of_uint (d : Decimal.uint) :
  Forall (fun c => 48 <= c <= 57)%N (digits_of_uint d).
Proof.
  induction d; simpl; constructor; auto; lia.
Qed.

Lemma Forall_str_of_int (z : Z) :
  Forall (fun c => 45 <= c <= 57)%N (str_of_int z).
Proof.
  assert (H : forall d, Forall (fun c => 45 <= c <= 57)%N (digits_of_uint d)).
  { intros d. eapply Forall_impl; [|apply Forall_digits_of_uint].
    simpl; intros; lia. }
  unfold str_of_int. destruct (Z.to_int z); [apply H|].
  constructor; [lia | apply H].
Qed.

Lemma Forall_pad (w : nat) (n : N) :
  Forall (fun c => 45 <= c <= 57)%N (pad w n).
Proof.
  unfold pad, zfill. apply Forall_app; split; [|apply Forall_str_of_int].
  apply Forall_forall. intros c Hc. apply repeat_spec in Hc. subst; lia.
Qed.

(** The value of a decimal numeral is below the power of ten of its
    length. *)
Lemma of_uint_acc_bound (d : Decimal.uint) :
  forall acc : positive,
    (Z.pos (Pos.of_uint_acc d acc)
     < (Z.pos acc + 1) * 10 ^ Z.of_nat (List.length (digits_of_uint d)))%Z.
Proof.
  induction d as [|d IH|d IH|d IH|d IH|d IH|d IH|d IH|d IH|d IH|d IH];
    intros acc; cbn [Pos.of_uint_acc digits_of_uint List.length];
    [simpl; lia | ..];
    rewrite Nat2Z.inj_succ, Z.pow_succ_r by lia;
    match goal with
    | |- (Z.pos (Pos.of_uint_acc _ ?a) < _)%Z =>
        specialize (IH a);
        assert (Z.pos a + 1 <= (Z.pos acc + 1) * 10)%Z by lia
    end;
    assert (0 < 10 ^ Z.of_nat (List.length (digits_of_uint d)))%Z
      by (apply Z.pow_pos_nonneg; lia);
    nia.
Qed.

Lemma of_uint_bound (d : Decimal.uint) :
  (Z.of_N (Pos.of_uint d) < 10 ^ Z.of_nat (List.length (digits_of_uint d)))%Z.
Proof.
  induction d as [|d IH|d IH|d IH|d IH|d IH|d IH|d IH|d IH|d IH|d IH];
    cbn [Pos.of_uint digits_of_uint List.length];
    [simpl; lia | ..];
    rewrite Nat2Z.inj_succ, Z.pow_succ_r by lia;
    [ assert (0 < 10 ^ Z.of_nat (List.length (digits_of_uint d)))%Z
        by (apply Z.pow_pos_nonneg; lia); lia
    | pose proof (of_uint_acc_bound d 1) as H
    | pose proof (of_uint_acc_bound d 2) as H
    | pose proof (of_uint_acc_bound d 3) as H
    | pose proof (of_uint_acc_bound d 4) as H
    | pose proof (of_uint_acc_bound d 5) as H
    | pose proof (of_uint_acc_bound d 6) as H
    | pose proof (of_uint_acc_bound d 7) as H
    | pose proof (of_uint_acc_bound d 8) as H
    | pose proof (of_uint_acc_bound d 9) as H ];
    cbn [Z.of_N]; lia.
Qed.

(** A number from 1000 on has at least four digits. *)
Lemma str_of_int_wide (n : N) :
  (1000 <= n)%N -> (4 <= List.length (str_of_int (Z.of_N n)))%nat.
Proof.
  intros Hn. destruct n as [|p]; [lia|].
  unfold str_of_int. cbn [Z.of_N Z.to_int].
  pose proof (of_uint_bound (Pos.to_uint p)) as Hb.
  rewrite DecimalPos.Unsigned.of_to in Hb. cbn [Z.of_N] in Hb.
  destruct (Nat.le_gt_cases 4 (List.length (digits_of_uint (Pos.to_uint p))))
    as [H|H]; [exact H|].
  exfalso.
  assert (10 ^ Z.of_nat (List.length (digits_of_uint (Pos.to_uint p)))
          <= 10 ^ 3)%Z by (apply Z.pow_le_mono_r; lia).
  change (10 ^ 3)%Z with 1000%Z in *. lia.
Qed.

Lemma pad_wide (n : N) : (1000 <= n)%N -> pad 4 n = str_of_int (Z.of_N n).
Proof.
  intros Hn. unfold pad, zfill.
  replace (4 - List.length (str_of_int (Z.of_N n)))%nat with 0%nat
    by (pose proof (str_of_int_wide n Hn); lia).
  reflexivity.
Qed.

End StringFacts.

(** ** File names *)

(** The timestamp of a file name, field by field. *)
Lemma strftime_timestamp (d : datetime) :
  strftime d "%Y-%m-%d-%H-%M"
  = str_of_int (Z.of_N (year d)) ++ py "-" ++ pad 2 (month d) ++ py "-"
    ++ pad 2 (day d) ++ py "-" ++ pad 2 (hour d) ++ py "-" ++ pad 2 (minute d).
Proof.
  cbn [strftime py map list_ascii_of_string app].
  repeat (rewrite <- app_assoc; cbn [app]).
  now rewrite app_nil_r.
Qed.

(** From 1000 on the year has four digits and the timestamp is
    YYYY-MM-DD-HH-MM. *)
Lemma strftime_timestamp_spec (d : datetime) :
  (1000 <= year d)%N -> strftime d "%Y-%m-%d-%H-%M" = timestamp_spec d.
Proof.
  intros Hy. rewrite strftime_timestamp. unfold timestamp_spec.
  now rewrite (pad_wide _ Hy).
Qed.

Lemma get_file_name_eq (m : Metadata) (ordinal : Z) (video : bool) :
  get_file_name m ordinal video
  = IMAGES_DIR ++ strftime (date m) "%Y-%m-%d-%H-%M" ++ py "-"
    ++ slugify_spec (title m)
    ++ (if (0 <? ordinal)%Z then py "-" ++ str_of_int ordinal else [])
    ++ (if video then py ".mp4" else py ".jpeg").
Proof.
  unfold get_file_name, slugify_spec, re_sub_non_ascii.
  change (py " ") with [SP]. change (py "-") with [45%N] at 1.
  rewrite replace_single.
  rewrite Z.gtb_ltb.
  unfold IMAGES_DIR.
  cbn [strftime py map list_ascii_of_string app].
  repeat (rewrite <- app_assoc; cbn [app]).
  reflexivity.
Qed.

Lemma name_charb_ok (s : pystr) : forallb name_charb s = true -> Forall name_char s.
Proof.
  intros H. apply Forall_forall. intros c Hc.
  rewrite forallb_forall in H. specialize (H c Hc).
  unfold name_charb in H. apply andb_prop in H as [H1 H2].
  apply N.leb_le in H1. apply negb_true_iff, N.eqb_neq in H2.
  now split.
Qed.

Lemma name_char_digits (s : pystr) :
  Forall (fun c => 45 <= c <= 57)%N s -> Forall name_char s.
Proof.
  apply Forall_impl. intros c Hc. unfold name_char, SP. lia.
Qed.

Lemma name_char_slugify (t : pystr) : Forall name_char (slugify_spec t).
Proof.
  unfold slugify_spec. apply Forall_map.
  apply Forall_strip. apply Forall_forall. intros c Hc.
  apply filter_In in Hc as [_ Hc]. unfold is_ascii in Hc. apply N.leb_le in Hc.
  unfold name_char. destruct (N.eqb_spec c SP) as [->|Hn].
  - unfold SP; split; [lia | discriminate].
  - now split.
Qed.

(** C4, as the code has it: for a year of four digits (1000 or later) the
    derived file name is the images directory, the timestamp as
    YYYY-MM-DD-HH-MM, a hyphen, the slugified title, a "-<ordinal>" suffix
    exactly when the ordinal is greater than 0, and ".jpeg" for an image or
    ".mp4" for a video.  (Below 1000 the year is written as it is, without
    leading zeros.) *)
Theorem file_name_construction (m : Metadata) (ordinal : Z) (video : bool) :
  (1000 <= year (date m))%N ->
  get_file_name m ordinal video
  = IMAGES_DIR ++ timestamp_spec (date m) ++ py "-" ++ slugify_spec (title m)
    ++ (if (0 <? ordinal)%Z then py "-" ++ str_of_int ordinal else [])
    ++ (if video then py ".mp4" else py ".jpeg").
Proof.
  intros Hy. rewrite get_file_name_eq.
  now rewrite (strftime_timestamp_spec _ Hy).
Qed.

(** The scenario of the specification: the page "Art Day!" of 2023-05-02
    14:30 gives ./images/2023-05-02-14-30-Art-Day!.jpeg for its first image
    and ./images/2023-05-02-14-30-Art-Day!-1.jpeg for its second. *)
Lemma file_name_construction_witness :
  get_file_name
    (mkMetadata (py "Art Day!") [] [] (mkdate 2023 5 2 14 30)) 0 false
  = py "./images/2023-05-02-14-30-Art-Day!.jpeg"
  /\ get_file_name
       (mkMetadata (py "Art Day!") [] [] (mkdate 2023 5 2 14 30)) 1 false
     = py "./images/2023-05-02-14-30-Art-Day!-1.jpeg".
Proof.
  split.
  - apply (file_name_construction
             (mkMetadata (py "Art Day!") [] [] (mkdate 2023 5 2 14 30)) 0 false).
    vm_compute. discriminate.
  - apply (file_name_construction
             (mkMetadata (py "Art Day!") [] [] (mkdate 2023 5 2 14 30)) 1 false).
    vm_compute. discriminate.
Defined.

(** The year 999, which [strptime] reads from "0999": the name starts with
    ./images/999-05-02 and not, as specified, with ./images/0999-05-02. *)
Lemma file_name_of_year_999 :
  ~ file_name_as_specified
      (mkMetadata (py "Art Day!") [] [] (mkdate 999 5 2 14 30)) 0 false.
Proof. unfold file_name_as_specified. vm_compute. discriminate. Qed.

Example file_name_short_year :
  get_file_name (mkMetadata (py "Art Day!") [] [] (mkdate 999 5 2 14 30)) 0 false
  = py "./images/999-05-02-14-30-Art-Day!.jpeg".
Proof. reflexivity. Qed.

(** C6: for all metadata (in particular with non-ASCII characters in the
    title) the derived file name contains only ASCII characters and no space;
    the slug it embeds, between the timestamp and the ordinal suffix, is the
    title with all non-ASCII characters stripped, leading and trailing
    whitespace trimmed, and spaces replaced by hyphens. *)
Theorem file_name_ascii_no_space (m : Metadata) (ordinal : Z) (video : bool) :
  Forall name_char (get_file_name m ordinal video)
  /\ get_file_name m ordinal video
     = IMAGES_DIR ++ strftime (date m) "%Y-%m-%d-%H-%M" ++ py "-"
       ++ slugify_spec (title m)
       ++ (if (0 <? ordinal)%Z then py "-" ++ str_of_int ordinal else [])
       ++ (if video then py ".mp4" else py ".jpeg")
  /\ replace (py " ") (py "-") (strip (re_sub_non_ascii (title m)))
     = slugify_spec (title m)
  /\ (forall c, In c (slugify_spec (title m)) ->
        In c (title m) /\ is_ascii c = true /\ c <> SP \/ c = 45%N).
Proof.
  split; [|split; [apply get_file_name_eq|split]].
  - rewrite get_file_name_eq, strftime_timestamp.
    rewrite !Forall_app. repeat split;
      try (apply name_char_digits, Forall_pad);
      try (apply name_char_digits, Forall_str_of_int);
      try (apply name_charb_ok; reflexivity);
      try apply name_char_slugify.
    + destruct (0 <? ordinal)%Z; [|constructor].
      rewrite Forall_app; split; [apply name_charb_ok; reflexivity|].
      apply name_char_digits, Forall_str_of_int.
    + destruct video; apply name_charb_ok; reflexivity.
  - unfold re_sub_non_ascii, slugify_spec.
    change (py " ") with [SP]. change (py "-") with [45%N].
    apply replace_single.
  - intros c Hc. unfold slugify_spec in Hc.
    apply in_map_iff in Hc as (x & Hx & Hin).
    destruct (N.eqb_spec x SP) as [Heq|Hn]; [now right|]. subst c. left.
    assert (Hf : In x (filter is_ascii (title m))).
    { revert Hin. generalize (filter is_ascii (title m)). intros s Hin.
      assert (Hs : Forall (fun y => In y s) (strip s)).
      { apply Forall_strip. apply Forall_forall. auto. }
      rewrite Forall_forall in Hs. auto. }
    apply filter_In in Hf as [H1 H2]. auto.
Qed.

(** ** Reasoning about computations *)

Section MonadFacts.
Context {A B : Type}.

Lemma bind_return (m : M A) (f : A -> M B) t a :
  m = (t, Return a) -> bind m f = (t ++ fst (f a), snd (f a)).
Proof. intros ->. simpl. now destruct (f a). Qed.

Lemma bind_raise (m : M A) (f : A -> M B) t e :
  m = (t, Raise e) -> bind m f = (t, Raise e).
Proof. now intros ->. Qed.

Lemma bind_inv_return (m : M A) (f : A -> M B) tr b :
  bind m f = (tr, Return b) ->
  exists t1 a t2, m = (t1, Return a) /\ f a = (t2, Return b) /\ tr = t1 ++ t2.
Proof.
  destruct m as [t1 [a|e|]]; simpl; try discriminate.
  destruct (f a) as [t2 o] eqn:E. intros [= <- ->].
  now exists t1, a, t2.
Qed.

Lemma bind_inv_raise (m : M A) (f : A -> M B) tr e :
  bind m f = (tr, Raise e) ->
  m = (tr, Raise e)
  \/ exists t1 a t2, m = (t1, Return a) /\ f a = (t2, Raise e) /\ tr = t1 ++ t2.
Proof.
  destruct m as [t1 [a|e'|]]; simpl; try discriminate.
  - destruct (f a) as [t2 o] eqn:E. intros [= <- ->].
    right. now exists t1, a, t2.
  - intros [= <- <-]. now left.
Qed.

End MonadFacts.

Section Invariants.
Context {A B : Type}.
Variable P : event -> Prop.
Variable Q : exn -> Prop.

Lemma only_ret (a : A) : only P (ret a).
Proof. constructor. Qed.

Lemma only_raise (e : exn) : only P (@raise A e).
Proof. constructor. Qed.

Lemma only_emit (ev : event) : P ev -> only P (emit ev).
Proof. intros H. repeat constructor. exact H. Qed.

Lemma only_bind (m : M A) (f : A -> M B) :
  only P m -> (forall a, only P (f a)) -> only P (bind m f).
Proof.
  unfold only. destruct m as [t [a|e|]]; simpl; intros Hm Hf; auto.
  specialize (Hf a). destruct (f a) as [t' o]. simpl in *.
  apply Forall_app. now split.
Qed.

Lemma raises_ret (a : A) : raises Q (ret a).
Proof. intros e; discriminate. Qed.

Lemma raises_raise (e : exn) : Q e -> raises Q (@raise A e).
Proof. intros H e' [= <-]. exact H. Qed.

Lemma raises_bind (m : M A) (f : A -> M B) :
  raises Q m -> (forall a, raises Q (f a)) -> raises Q (bind m f).
Proof.
  unfold raises. destruct m as [t [a|e|]]; simpl; intros Hm Hf e' He.
  - specialize (Hf a). destruct (f a) as [t' o]. simpl in *. auto.
  - injection He as <-. now apply Hm.
  - discriminate.
Qed.

End Invariants.

Lemma raises_emit (Q : exn -> Prop) (ev : event) : raises Q (emit ev).
Proof. intros e; discriminate. Qed.

(** ** Metadata extraction *)

Section StripContains.

Lemma lstrip_keeps (a : N) (p x y : pystr) :
  isspace a = false ->
  exists x', lstrip (x ++ (a :: p) ++ y) = x' ++ (a :: p) ++ y.
Proof.
  intros Ha. induction x as [|c x IH]; simpl.
  - rewrite Ha. now exists [].
  - destruct (isspace c); [exact IH|]. now exists (c :: x).
Qed.

Lemma contains_lstrip (a : N) (p s : pystr) :
  isspace a = false ->
  contains (a :: p) s = true -> contains (a :: p) (lstrip s) = true.
Proof.
  intros Ha H. apply contains_spec in H as (x & y & ->).
  destruct (lstrip_keeps a p x y Ha) as [x' ->].
  apply contains_spec. now exists x', y.
Qed.

Lemma contains_rev (p s : pystr) :
  contains p s = true -> contains (rev p) (rev s) = true.
Proof.
  intros H. apply contains_spec in H as (x & y & ->).
  apply contains_spec. exists (rev y), (rev x).
  now rewrite !rev_app_distr, <- app_assoc.
Qed.

(** A substring that neither starts nor ends with whitespace survives
    [strip]. *)
Lemma contains_strip (p s : pystr) (a b : N) (q q' : pystr) :
  p = a :: q -> rev p = b :: q' -> isspace a = false -> isspace b = false ->
  contains p s = true -> contains p (strip s) = true.
Proof.
  intros -> Hr Ha Hb H. unfold strip, rstrip.
  apply (contains_lstrip a q _ Ha) in H.
  apply contains_rev in H. rewrite Hr in H.
  apply (contains_lstrip b q' _ Hb) in H.
  apply contains_rev in H. rewrite <- Hr, rev_involutive in H. exact H.
Qed.

Lemma logged_out_strip (s : pystr) :
  contains (py "logged out") s = true ->
  contains (py "logged out") (strip s) = true.
Proof.
  eapply contains_strip; reflexivity.
Qed.

Lemma contains_nonempty (a : N) (p s : pystr) :
  contains (a :: p) s = true -> truthy s = true.
Proof. destruct s; [discriminate | reflexivity]. Qed.

End StripContains.

(** The alert loop raises exactly when some alert, stripped, mentions
    "logged out". *)
Lemma check_alerts_raises (alerts : list Tag) :
  (exists alert, In alert alerts /\
                 contains (py "logged out") (strip (text alert)) = true) ->
  check_alerts alerts = ([], Raise LoggedOutException).
Proof.
  induction alerts as [|a rest IH]; intros (alert & Hin & Hc).
  - destruct Hin.
  - simpl. destruct (contains (py "logged out") (strip (text a))) eqn:E.
    + now rewrite (contains_nonempty _ _ _ E).
    + assert (Hrest : check_alerts rest = ([], Raise LoggedOutException)).
      { apply IH. exists alert. split; [|exact Hc].
        destruct Hin as [->|Hin]; [congruence | exact Hin]. }
      now destruct (truthy (strip (text a))).
Qed.

Lemma check_alerts_passes (alerts : list Tag) :
  (forall alert, In alert alerts ->
                 contains (py "logged out") (strip (text alert)) = false) ->
  check_alerts alerts = ([], Return tt).
Proof.
  induction alerts as [|a rest IH]; intros H; [reflexivity|].
  simpl. rewrite (H a (or_introl eq_refl)).
  rewrite IH by (intros; apply H; now right).
  now destruct (truthy (strip (text a))).
Qed.

Lemma check_alerts_cases (alerts : list Tag) :
  check_alerts alerts = ([], Return tt)
  \/ check_alerts alerts = ([], Raise LoggedOutException).
Proof.
  induction alerts as [|a rest IH]; [now left|]. simpl.
  destruct (truthy (strip (text a))); [|exact IH].
  destruct (contains _ _); [now right | exact IH].
Qed.

(** C3: when some alert region of the document has a text that includes
    "logged out", metadata extraction fails with the session-expiry
    exception, and the only query made on the document is the one for the
    alert regions: no other field (title, description, caption) is read. *)
Theorem logged_out_detected_first
    (strptime : pystr -> option datetime) (doc : PageDocument) :
  (exists alert, In alert (doc ".alert"%string) /\
                 contains (py "logged out") (text alert) = true) ->
  get_metadata strptime doc = ([Select ".alert"], Raise LoggedOutException).
Proof.
  intros (alert & Hin & Hc).
  unfold get_metadata, select. simpl.
  rewrite check_alerts_raises; [reflexivity|].
  exists alert. split; [exact Hin | now apply logged_out_strip].
Qed.

(** C7: a document that passes the session-expiry check but lacks the
    heading, lacks the note paragraph, or whose caption is missing or does
    not match the "Authored by ... added ..." pattern makes extraction fail
    with a parse error ([AttributeError]), which is not the session-expiry
    exception. *)
Theorem malformed_page_parse_error
    (strptime : pystr -> option datetime) (doc : PageDocument) :
  passes_session_check doc ->
  hd_error (doc "h1"%string) = None
  \/ hd_error (doc ".page-note p"%string) = None
  \/ hd_error (doc ".obs-metadata p"%string) = None
  \/ (exists c, hd_error (doc ".obs-metadata p"%string) = Some c
                /\ search_authored (strip (text c)) = None) ->
  exists tr e,
    get_metadata strptime doc = (tr, Raise e)
    /\ e = AttributeError
    /\ MetadataParseError e /\ ~ SessionExpiredError e.
Proof.
  intros Hpass Hbad.
  assert (Hgoal : exists tr, get_metadata strptime doc = (tr, Raise AttributeError)).
  { unfold get_metadata, select, select_one. simpl.
    rewrite (check_alerts_passes _ Hpass). simpl.
    destruct (hd_error (doc "h1"%string)) as [h|]; simpl; [|eauto].
    destruct (hd_error (doc ".page-note p"%string)) as [n|]; simpl; [|eauto].
    destruct (hd_error (doc ".obs-metadata p"%string)) as [c|] eqn:Ec;
      simpl; [|eauto].
    destruct Hbad as [H|[H|[H|(c' & H & Hs)]]]; try discriminate.
    injection H as <-. rewrite Hs. simpl. eauto. }
  destruct Hgoal as [tr Hg]. exists tr, AttributeError.
  repeat split; [exact Hg | now left | discriminate].
Qed.

(** What a successful extraction returns. *)
Lemma get_metadata_returns
    (strptime : pystr -> option datetime) (doc : PageDocument) tr m :
  get_metadata strptime doc = (tr, Return m) ->
  exists h n c date_text,
    hd_error (doc "h1"%string) = Some h
    /\ hd_error (doc ".page-note p"%string) = Some n
    /\ hd_error (doc ".obs-metadata p"%string) = Some c
    /\ search_authored (strip (text c)) = Some (artist m, date_text)
    /\ strptime date_text = Some (date m)
    /\ title m = strip (text h)
    /\ description m = collapse_line_breaks (strip (text n))
    /\ tr = [Select ".alert"; Select "h1"; Select ".page-note p";
             Select ".obs-metadata p"].
Proof.
  unfold get_metadata, select, select_one. simpl.
  destruct (check_alerts_cases (doc ".alert"%string)) as [-> | ->];
    simpl; [|discriminate].
  destruct (hd_error (doc "h1"%string)) as [h|]; simpl; [|discriminate].
  destruct (hd_error (doc ".page-note p"%string)) as [n|]; simpl; [|discriminate].
  destruct (hd_error (doc ".obs-metadata p"%string)) as [c|]; simpl; [|discriminate].
  destruct (search_authored (strip (text c))) as [[g1 g2]|] eqn:Es;
    simpl; [|discriminate].
  destruct (strptime g2) as [d|] eqn:Ed; simpl; [|discriminate].
  intros [= <- <-]. exists h, n, c, g2. simpl.
  repeat split; auto. apply replace_single.
Qed.

(** C9: the journal entry formatted from a successfully extracted record
    reproduces the page: its heading is the page title, its sub-heading the
    artist, a comma and the formatted date, and its body the description
    with every line break replaced by a single space. *)
Theorem journal_entry_round_trip
    (strptime : pystr -> option datetime) (doc : PageDocument) tr m :
  get_metadata strptime doc = (tr, Return m) ->
  exists h n c date_text d,
    hd_error (doc "h1"%string) = Some h
    /\ hd_error (doc ".page-note p"%string) = Some n
    /\ hd_error (doc ".obs-metadata p"%string) = Some c
    /\ search_authored (strip (text c)) = Some (artist m, date_text)
    /\ strptime date_text = Some d
    /\ capture_observation_info m
       = render
           (mkEntry (strip (text h))
                    (artist m ++ py ", " ++ strftime d "%-d %B %Y %I:%M%p")
                    (collapse_line_breaks (strip (text n))))
    /\ ~ In LF (collapse_line_breaks (strip (text n))).
Proof.
  intros H.
  destruct (get_metadata_returns _ _ _ _ H)
    as (h & n & c & dt & Hh & Hn & Hc & Hs & Hd & Ht & Hdesc & _).
  exists h, n, c, dt, (date m). repeat split; auto.
  - unfold capture_observation_info, render. simpl heading. simpl subheading.
    simpl body. rewrite <- Ht, <- Hdesc. now rewrite <- !app_assoc.
  - unfold collapse_line_breaks.
    intros Hin. apply in_map_iff in Hin as (x & Hx & _).
    destruct (N.eqb_spec x LF); [discriminate | contradiction].
Qed.

(** ** Navigation *)

Section NavigationFacts.
Variable isdigit : N -> bool.

Lemma digits_prefix_digits (s : pystr) :
  Forall (fun c => isdigit c = true) (digits_prefix isdigit s).
Proof.
  induction s as [|c s IH]; simpl; [constructor|].
  destruct (isdigit c) eqn:E; constructor; auto.
Qed.

Lemma skipn_length_app (p s : pystr) : skipn (List.length p) (p ++ s) = s.
Proof. induction p; simpl; auto. Qed.

Lemma startswith_skipn (p s : pystr) :
  startswith p s = true ->
  exists r, s = p ++ r /\ skipn (List.length p) s = r.
Proof.
  intros H. apply startswith_spec in H as [r ->].
  exists r. split; [reflexivity | apply skipn_length_app].
Qed.

Lemma search_id_unfold (base s : pystr) :
  search_id isdigit base s
  = if startswith (base ++ py "/") s
    then Some (digits_prefix isdigit (skipn (List.length (base ++ py "/")) s))
    else match s with
         | [] => None
         | _ :: r => search_id isdigit base r
         end.
Proof. destruct s; reflexivity. Qed.

Lemma search_id_some (base s g : pystr) :
  search_id isdigit base s = Some g ->
  exists pre post,
    s = pre ++ (base ++ py "/") ++ post /\ g = digits_prefix isdigit post.
Proof.
  induction s as [|c s IH]; rewrite search_id_unfold;
    destruct (startswith (base ++ py "/") _) eqn:E; try discriminate.
  - intros [= <-]. destruct (startswith_skipn _ _ E) as (r & Hs & ->).
    now exists [], r.
  - intros [= <-]. destruct (startswith_skipn _ _ E) as (r & Hs & ->).
    now exists [], r.
  - intros H. destruct (IH H) as (pre & post & -> & ->).
    now exists (c :: pre), post.
Qed.

Lemma search_id_none (base s : pystr) :
  search_id isdigit base s = None <-> contains (base ++ py "/") s = false.
Proof.
  induction s as [|c s IH]; rewrite search_id_unfold; cbn [contains];
    destruct (startswith (base ++ py "/") _); simpl;
    try exact IH; split; congruence.
Qed.

(** A match at the leftmost occurrence: when no occurrence of the base URL
    and slash is followed by a digit, group 1 is empty. *)
Lemma search_id_empty (base s : pystr) :
  contains (base ++ py "/") s = true ->
  (forall pre post, s = pre ++ (base ++ py "/") ++ post ->
                    digits_prefix isdigit post = []) ->
  search_id isdigit base s = Some [].
Proof.
  intros Hc Hnd. destruct (search_id isdigit base s) as [g|] eqn:E.
  - destruct (search_id_some _ _ _ E) as (pre & post & Hs & ->).
    now rewrite (Hnd _ _ Hs).
  - apply search_id_none in E. congruence.
Qed.

End NavigationFacts.

Section WalkFacts.
Variable isdigit : N -> bool.
Variable strptime : pystr -> option datetime.
Variable W : World.

Local Abbreviation get_next := (get_next_observation_id isdigit).
Local Abbreviation save_media := (save_media_for_page strptime W).
Local Abbreviation loop := (run_loop isdigit strptime W).

Lemma get_next_absent doc cfg :
  hd_error (doc "li.previous a"%string) = None ->
  get_next doc cfg = ([Select "li.previous a"], Return None).
Proof. intros H. unfold get_next_observation_id, select_one. simpl. now rewrite H. Qed.

Lemma get_next_present doc cfg a href :
  hd_error (doc "li.previous a"%string) = Some a ->
  assoc "href" (attrs a) = Some href ->
  get_next doc cfg
  = ([Select "li.previous a"],
     match search_id isdigit (base_url cfg) href with
     | Some g => Return (Some g)
     | None => Raise (RuntimeError (py "observation id not found"))
     end).
Proof.
  intros H Ha. unfold get_next_observation_id, select_one, getitem. simpl.
  rewrite H. simpl. rewrite Ha. simpl.
  now destruct (search_id isdigit (base_url cfg) href).
Qed.

Lemma get_next_digits doc cfg t next :
  get_next doc cfg = (t, Return (Some next)) ->
  Forall (fun c => isdigit c = true) next.
Proof.
  unfold get_next_observation_id, select_one, getitem. simpl.
  destruct (hd_error _) as [a|]; simpl; [|discriminate].
  destruct (assoc _ _) as [href|]; simpl; [|discriminate].
  destruct (search_id _ _ _) as [g|] eqn:E; simpl; [|discriminate].
  intros [= _ <-].
  destruct (search_id_some _ _ _ _ E) as (pre & post & _ & ->).
  apply digits_prefix_digits.
Qed.

(** The loop ends when the identifier is [None] or empty. *)
Lemma run_loop_done fuel cfg o md :
  truthy_opt o = false -> loop fuel cfg o md = ([], Return md).
Proof.
  destruct fuel; destruct o as [[|c i]|]; simpl; intros H;
    try discriminate; reflexivity.
Qed.

(** One iteration of the loop on a page that is fetched and processed. *)
Lemma run_loop_step fuel cfg id md doc tg ts section tn o :
  truthy id = true ->
  get_doc W id cfg = (tg, Return doc) ->
  save_media doc cfg = (ts, Return section) ->
  get_next doc cfg = (tn, o) ->
  loop (S fuel) cfg (Some id) md
  = match o with
    | Return next =>
        (Print id :: tg ++ ts ++ tn ++ fst (loop fuel cfg next (md ++ section)),
         snd (loop fuel cfg next (md ++ section)))
    | Raise e => (Print id :: tg ++ ts ++ tn, Raise e)
    | OutOfFuel => (Print id :: tg ++ ts ++ tn, OutOfFuel)
    end.
Proof.
  intros Hid Hg Hs Hn. destruct id as [|c i]; [discriminate|].
  cbn [run_loop]. rewrite Hg. cbn [bind emit app].
  rewrite Hs. cbn [bind]. rewrite Hn.
  destruct o as [next|e|]; cbn [bind].
  - now destruct (loop fuel cfg next (md ++ section)) as [t r].
  - reflexivity.
  - reflexivity.
Qed.

End WalkFacts.

(** ** Traces *)

Lemma page_requests_app a b :
  page_requests (a ++ b) = page_requests a ++ page_requests b.
Proof. apply flat_map_app. Qed.

Lemma printed_app a b : printed (a ++ b) = printed a ++ printed b.
Proof. apply flat_map_app. Qed.

Lemma text_writes_app a b :
  text_writes (a ++ b) = text_writes a ++ text_writes b.
Proof. apply flat_map_app. Qed.

Lemma last_app_nonempty (a b : pystr) (d : N) :
  b <> [] -> last (a ++ b) d = last b d.
Proof.
  intros Hb. induction a as [|x a IH]; [reflexivity|].
  cbn [app]. cbn [last]. destruct (a ++ b) eqn:E; [|now rewrite <- IH].
  apply app_eq_nil in E as [_ E]. contradiction.
Qed.

Lemma get_file_name_not_journal (m : Metadata) (i : Z) (v : bool) :
  get_file_name m i v <> JOURNAL_PATH.
Proof.
  rewrite get_file_name_eq. intros H.
  apply (f_equal (fun l => last l 0%N)) in H.
  rewrite !app_assoc in H.
  rewrite last_app_nonempty in H by (destruct v; discriminate).
  destruct v; discriminate H.
Qed.

Lemma media_event_quiet (ev : event) :
  media_event ev -> ~ touches JOURNAL_PATH ev.
Proof.
  destruct ev; simpl; auto.
  intros (m & i & v & ->). apply get_file_name_not_journal.
Qed.

Lemma media_events_silent (tr : list event) :
  Forall media_event tr ->
  page_requests tr = [] /\ printed tr = [] /\ text_writes tr = [].
Proof.
  induction 1 as [|ev tr Hev _ IH]; [now repeat split|].
  destruct IH as (H1 & H2 & H3).
  unfold page_requests, printed, text_writes in *. cbn [flat_map].
  rewrite H1, H2, H3.
  destruct ev as [| ? [|] ? | | | |]; simpl in *; tauto.
Qed.

Lemma only_impl {A} (P P' : event -> Prop) (m : M A) :
  (forall ev, P ev -> P' ev) -> only P m -> only P' m.
Proof. intros H. apply Forall_impl, H. Qed.

Lemma only_check_alerts {P} alerts : only P (check_alerts alerts).
Proof.
  destruct (check_alerts_cases alerts) as [-> | ->]; constructor.
Qed.

Lemma only_text_of {P} tag : only P (text_of tag).
Proof. destruct tag; constructor. Qed.

Lemma only_getitem {P} tag key : only P (getitem tag key).
Proof. unfold getitem. destruct (assoc _ _); constructor. Qed.

Ltac only_step :=
  first [ apply only_check_alerts | apply only_text_of | apply only_getitem
        | apply only_ret | apply only_raise
        | apply only_emit; exact I
        | apply only_bind; [|intros] ].

Section TraceFacts.
Variable isdigit : N -> bool.
Variable strptime : pystr -> option datetime.
Variable W : World.

Lemma get_doc_trace id cfg :
  fst (get_doc W id cfg)
  = [HttpGet (base_url cfg ++ py "/" ++ id)
             [(COOKIE_NAME, cookie_value cfg)] (timeout cfg)].
Proof.
  unfold get_doc, requests_get, raise_for_status. simpl.
  destruct (http_get W _ _) as [r|]; simpl; [|reflexivity].
  now destruct ((400 <=? status_code r)%Z && (status_code r <? 600)%Z).
Qed.

Lemma get_next_trace doc cfg :
  fst (get_next_observation_id isdigit doc cfg) = [Select "li.previous a"].
Proof.
  unfold get_next_observation_id, select_one, getitem. simpl.
  destruct (hd_error _) as [a|]; simpl; [|reflexivity].
  destruct (assoc _ _) as [href|]; simpl; [|reflexivity].
  now destruct (search_id _ _ _).
Qed.

Lemma only_get_metadata doc : only media_event (get_metadata strptime doc).
Proof.
  unfold get_metadata, select, select_one.
  repeat only_step.
  destruct (search_authored _) as [[g1 g2]|]; [|constructor].
  destruct (strptime g2); constructor.
Qed.

Lemma only_save_each video idx items m cfg :
  only media_event (save_each W video idx items m cfg).
Proof.
  revert idx. induction items as [|item rest IH]; intros idx; [constructor|].
  cbn [save_each]. unfold requests_get.
  repeat only_step; try apply IH.
  - destruct (http_get W _ []); constructor.
  - apply only_emit. simpl. eauto.
Qed.

Lemma only_save_media doc cfg :
  only media_event (save_media_for_page strptime W doc cfg).
Proof.
  unfold save_media_for_page, save_images_for_page, save_videos_for_page,
    select.
  repeat first [ apply only_get_metadata | apply only_save_each | only_step ].
Qed.

End TraceFacts.

(** ** The walk *)

Section Walk.
Variable isdigit : N -> bool.
Variable strptime : pystr -> option datetime.
Variable W : World.

Local Abbreviation get_next := (get_next_observation_id isdigit).
Local Abbreviation save_media := (save_media_for_page strptime W).
Local Abbreviation loop := (run_loop isdigit strptime W).

Lemma page_trace_shows cfg id ts :
  Forall media_event ts ->
  page_requests (page_trace cfg id ts) = [base_url cfg ++ py "/" ++ id]
  /\ printed (page_trace cfg id ts) = [id]
  /\ text_writes (page_trace cfg id ts) = []
  /\ Forall (fun ev => ~ touches JOURNAL_PATH ev) (page_trace cfg id ts).
Proof.
  intros Hts. destruct (media_events_silent _ Hts) as (H1 & H2 & H3).
  unfold page_trace, page_requests, printed, text_writes in *.
  cbn [flat_map]. rewrite !flat_map_app, H1, H2, H3.
  repeat split; try reflexivity.
  constructor; [simpl; auto|]. constructor; [simpl; auto|].
  apply Forall_app. split.
  - eapply Forall_impl; [|exact Hts]. apply media_event_quiet.
  - constructor; [simpl; auto | constructor].
Qed.

(** One iteration on a page that is fetched and processed, by what its
    navigation query returns. *)
Lemma run_loop_page fuel cfg id md doc tg ts section :
  truthy id = true ->
  get_doc W id cfg = (tg, Return doc) ->
  save_media doc cfg = (ts, Return section) ->
  Forall media_event ts
  /\ loop (S fuel) cfg (Some id) md
     = match snd (get_next doc cfg) with
       | Return next =>
           (page_trace cfg id ts ++ fst (loop fuel cfg next (md ++ section)),
            snd (loop fuel cfg next (md ++ section)))
       | Raise e => (page_trace cfg id ts, Raise e)
       | OutOfFuel => (page_trace cfg id ts, OutOfFuel)
       end.
Proof.
  intros Hid Hg Hs. split.
  - pose proof (only_save_media strptime W doc cfg) as H.
    unfold only in H. now rewrite Hs in H.
  - pose proof (get_doc_trace W id cfg) as Htg. rewrite Hg in Htg.
    simpl in Htg. subst tg.
    pose proof (get_next_trace isdigit doc cfg) as Htn.
    destruct (get_next doc cfg) as [tn o] eqn:Hn. simpl in Htn. subst tn.
    rewrite (run_loop_step isdigit strptime W fuel cfg id md doc _ ts
               section _ o Hid Hg Hs Hn).
    unfold page_trace. simpl.
    destruct o; simpl; now rewrite <- ?app_assoc.
Qed.

End Walk.

Section WalkTheorems.
Variable isdigit : N -> bool.
Variable strptime : pystr -> option datetime.
Variable W : World.

Local Abbreviation get_next := (get_next_observation_id isdigit).
Local Abbreviation save_media := (save_media_for_page strptime W).
Local Abbreviation loop := (run_loop isdigit strptime W).

(** C8: on a processed page whose "previous" link is present but whose href
    the base-URL pattern does not match, the walk aborts with the
    navigation error; when the link is absent the walk is done and returns
    the journal accumulated so far, this page included.  The pattern fails
    exactly when the href does not contain the base URL followed by a
    slash. *)
Theorem previous_link_outcome fuel cfg id md doc tg ts section :
  truthy id = true ->
  get_doc W id cfg = (tg, Return doc) ->
  save_media doc cfg = (ts, Return section) ->
  (forall a href,
      hd_error (doc "li.previous a"%string) = Some a ->
      assoc "href" (attrs a) = Some href ->
      search_id isdigit (base_url cfg) href = None ->
      exists e,
        NavigationParseError e
        /\ loop (S fuel) cfg (Some id) md = (page_trace cfg id ts, Raise e))
  /\ (hd_error (doc "li.previous a"%string) = None ->
      loop (S fuel) cfg (Some id) md
      = (page_trace cfg id ts, Return (md ++ section)))
  /\ (forall href,
         search_id isdigit (base_url cfg) href = None
         <-> contains (base_url cfg ++ py "/") href = false).
Proof.
  intros Hid Hg Hs.
  destruct (run_loop_page isdigit strptime W fuel cfg id md doc tg ts section
              Hid Hg Hs) as [_ Hl].
  split; [|split].
  - intros a href Ha Hh Hnone.
    exists (RuntimeError (py "observation id not found")).
    split; [reflexivity|].
    rewrite Hl, (get_next_present isdigit doc cfg a href Ha Hh), Hnone.
    reflexivity.
  - intros Ha. rewrite Hl, (get_next_absent isdigit doc cfg Ha). simpl.
    rewrite run_loop_done by reflexivity. simpl. now rewrite app_nil_r.
  - intros href. apply search_id_none.
Qed.

(** C10: on a processed page whose "previous" link is present and whose
    href contains the base URL followed by a slash with no digit after it,
    next-identifier extraction succeeds with the empty string and the walk
    ends as if done: no navigation error, no further page is requested,
    whatever budget of iterations remains.  Every identifier the extraction
    returns consists of decimal digits only. *)
Theorem empty_identifier_ends_walk fuel cfg id md doc tg ts section a href :
  truthy id = true ->
  get_doc W id cfg = (tg, Return doc) ->
  save_media doc cfg = (ts, Return section) ->
  hd_error (doc "li.previous a"%string) = Some a ->
  assoc "href" (attrs a) = Some href ->
  contains (base_url cfg ++ py "/") href = true ->
  (forall pre post, href = pre ++ (base_url cfg ++ py "/") ++ post ->
                    digits_prefix isdigit post = []) ->
  get_next doc cfg = ([Select "li.previous a"], Return (Some []))
  /\ loop (S fuel) cfg (Some id) md
     = (page_trace cfg id ts, Return (md ++ section))
  /\ page_requests (fst (loop (S fuel) cfg (Some id) md))
     = [base_url cfg ++ py "/" ++ id]
  /\ (forall doc' cfg' t next,
         get_next doc' cfg' = (t, Return (Some next)) ->
         Forall (fun c => isdigit c = true) next).
Proof.
  intros Hid Hg Hs Ha Hh Hc Hnd.
  destruct (run_loop_page isdigit strptime W fuel cfg id md doc tg ts section
              Hid Hg Hs) as [Hts Hl].
  assert (Hn : get_next doc cfg = ([Select "li.previous a"], Return (Some []))).
  { rewrite (get_next_present isdigit doc cfg a href Ha Hh).
    now rewrite (search_id_empty isdigit _ _ Hc Hnd). }
  assert (Hloop : loop (S fuel) cfg (Some id) md
                  = (page_trace cfg id ts, Return (md ++ section))).
  { rewrite Hl, Hn. simpl. rewrite run_loop_done by reflexivity.
    simpl. now rewrite app_nil_r. }
  repeat split; auto.
  - rewrite Hloop. apply page_trace_shows, Hts.
  - apply get_next_digits.
Qed.

End WalkTheorems.

(** ** Walking a chain *)

Section Chains.
Variable isdigit : N -> bool.
Variable strptime : pystr -> option datetime.
Variable W : World.

Local Abbreviation get_next := (get_next_observation_id isdigit).
Local Abbreviation save_media := (save_media_for_page strptime W).
Local Abbreviation loop := (run_loop isdigit strptime W).

Lemma outcome_pair {A} (m : M A) (o : outcome A) : snd m = o -> m = (fst m, o).
Proof. destruct m; simpl; now intros ->. Qed.

Lemma loop_chain cfg id pages :
  chain isdigit strptime W cfg id pages ->
  forall fuel md,
    (List.length pages <= fuel)%nat ->
    loop fuel cfg (Some id) md
    = (flat_map (visit_trace strptime W cfg) pages,
       Return (md ++ List.concat (map visit_section pages))).
Proof.
  induction 1 as [id doc section Hid Hg Hs Hnone
                 |id doc section a href next rest Hid Hg Hs Ha Hh Hn Hrest IH];
    intros fuel md Hfuel; (destruct fuel as [|fuel]; [simpl in Hfuel; lia|]).
  - destruct (run_loop_page isdigit strptime W fuel cfg id md doc _ _ section
                Hid (outcome_pair _ _ Hg) (outcome_pair _ _ Hs)) as [_ ->].
    rewrite (get_next_absent isdigit doc cfg Hnone). simpl.
    rewrite run_loop_done by reflexivity. simpl.
    unfold visit_trace. simpl.
    rewrite (app_nil_r section), (app_nil_r (_ ++ [Select _])). reflexivity.
  - destruct (run_loop_page isdigit strptime W fuel cfg id md doc _ _ section
                Hid (outcome_pair _ _ Hg) (outcome_pair _ _ Hs)) as [_ ->].
    rewrite (get_next_present isdigit doc cfg a href Ha Hh), Hn. simpl snd.
    cbv iota. rewrite IH by (simpl in Hfuel; lia).
    simpl. now rewrite <- (app_assoc md).
Qed.

Lemma visit_traces_show cfg pages :
  page_requests (flat_map (visit_trace strptime W cfg) pages)
  = map (fun v => base_url cfg ++ py "/" ++ visit_id v) pages
  /\ printed (flat_map (visit_trace strptime W cfg) pages) = map visit_id pages
  /\ text_writes (flat_map (visit_trace strptime W cfg) pages) = []
  /\ Forall (fun ev => ~ touches JOURNAL_PATH ev)
       (flat_map (visit_trace strptime W cfg) pages).
Proof.
  induction pages as [|v pages (IH1 & IH2 & IH3 & IH4)];
    [repeat split; constructor|].
  assert (Hv : page_requests (visit_trace strptime W cfg v)
               = [base_url cfg ++ py "/" ++ visit_id v]
               /\ printed (visit_trace strptime W cfg v) = [visit_id v]
               /\ text_writes (visit_trace strptime W cfg v) = []
               /\ Forall (fun ev => ~ touches JOURNAL_PATH ev)
                    (visit_trace strptime W cfg v)).
  { apply page_trace_shows, (only_save_media strptime W). }
  destruct Hv as (H1 & H2 & H3 & H4).
  cbn [flat_map map].
  rewrite page_requests_app, printed_app, text_writes_app.
  rewrite H1, H2, H3, IH1, IH2, IH3.
  repeat split; try reflexivity.
  apply Forall_app. split; [exact H4 | exact IH4].
Qed.

Lemma save_media_section doc cfg section :
  snd (save_media doc cfg) = Return section ->
  exists t m,
    get_metadata strptime doc = (t, Return m)
    /\ section = capture_observation_info m.
Proof.
  unfold save_media_for_page, select. simpl.
  destruct (get_metadata strptime doc) as [t [m|e|]]; simpl; try discriminate.
  destruct (save_images_for_page W _ m cfg) as [t1 [u|e|]];
    simpl; try discriminate.
  destruct (save_videos_for_page W _ m cfg) as [t2 [u'|e|]];
    simpl; try discriminate.
  intros [= <-]. now exists t, m.
Qed.

Lemma chain_sections cfg id pages :
  chain isdigit strptime W cfg id pages ->
  Forall (fun v => exists t m,
              get_metadata strptime (visit_doc v) = (t, Return m)
              /\ visit_section v = capture_observation_info m) pages.
Proof.
  induction 1; constructor; simpl; eauto using save_media_section.
Qed.

End Chains.

Section ChainWalk.
Variable isdigit : N -> bool.
Variable strptime : pystr -> option datetime.
Variable W : World.

(** C5: on a chain of pages in which every page but the last has a
    "previous" link (leading to the next page of the chain), the walk of
    [run] requests exactly the pages of the chain, in link order, ends
    normally after the last page, and the journal document it has then
    accumulated - the text [run] goes on to write - is the owner heading
    followed by exactly one section per visited page, in visitation order;
    each section is the formatted entry of that page's metadata. *)
Theorem chain_walk (fuel : nat) (cfg : TapestryConfig) (pages : list Visit) :
  chain isdigit strptime W cfg (first_observation_id cfg) pages ->
  (List.length pages <= fuel)%nat ->
  exists tr,
    run_loop isdigit strptime W fuel cfg (Some (first_observation_id cfg))
      (journal_heading cfg)
    = (tr, Return (journal_heading cfg
                   ++ List.concat (map visit_section pages)))
    /\ page_requests tr
       = map (fun v => base_url cfg ++ py "/" ++ visit_id v) pages
    /\ printed tr = map visit_id pages
    /\ List.length (map visit_section pages) = List.length (page_requests tr)
    /\ Forall (fun v => exists t m,
                   get_metadata strptime (visit_doc v) = (t, Return m)
                   /\ visit_section v = capture_observation_info m) pages.
Proof.
  intros Hchain Hfuel.
  pose proof (loop_chain isdigit strptime W cfg _ pages Hchain fuel
                (journal_heading cfg) Hfuel) as Hloop.
  destruct (visit_traces_show strptime W cfg pages) as (H1 & H2 & _ & _).
  exists (flat_map (visit_trace strptime W cfg) pages).
  split; [|split; [|split; [|split]]].
  - exact Hloop.
  - exact H1.
  - exact H2.
  - rewrite H1. now rewrite !length_map.
  - apply (chain_sections isdigit strptime W cfg _ pages Hchain).
Qed.

End ChainWalk.

(** ** Terminal states: the journal file and the exit status *)

Ltac raises_step :=
  first [ apply raises_ret | apply raises_emit
        | apply raises_raise; intros ?; discriminate
        | apply raises_bind; [|intros] ].

Section Terminal.
Variable isdigit : N -> bool.
Variable strptime : pystr -> option datetime.
Variable W : World.

Local Abbreviation loop := (run_loop isdigit strptime W).

Lemma raises_check_alerts alerts : raises no_exit (check_alerts alerts).
Proof.
  destruct (check_alerts_cases alerts) as [-> | ->]; raises_step.
Qed.

Lemma raises_text_of tag : raises no_exit (text_of tag).
Proof. destruct tag; raises_step. Qed.

Lemma raises_getitem tag key : raises no_exit (getitem tag key).
Proof. unfold getitem. destruct (assoc _ _); raises_step. Qed.

Lemma raises_requests_get url cookies t :
  raises no_exit (requests_get W url cookies t).
Proof.
  unfold requests_get. repeat raises_step.
  destruct (http_get W url cookies); raises_step.
Qed.

Lemma raises_get_doc id cfg : raises no_exit (get_doc W id cfg).
Proof.
  unfold get_doc. apply raises_bind; [apply raises_requests_get | intros r].
  apply raises_bind; [|intros; raises_step].
  unfold raise_for_status. destruct (_ && _); raises_step.
Qed.

Lemma raises_get_metadata doc : raises no_exit (get_metadata strptime doc).
Proof.
  unfold get_metadata, select, select_one.
  repeat first [ apply raises_check_alerts | apply raises_text_of | raises_step ].
  destruct (search_authored _) as [[g1 g2]|]; [|raises_step].
  destruct (strptime g2); raises_step.
Qed.

Lemma raises_save_each video idx items m cfg :
  raises no_exit (save_each W video idx items m cfg).
Proof.
  revert idx. induction items as [|item rest IH]; intros idx; [raises_step|].
  cbn [save_each].
  repeat first [ apply raises_getitem | apply raises_requests_get | apply IH
               | raises_step ].
Qed.

Lemma raises_save_media doc cfg :
  raises no_exit (save_media_for_page strptime W doc cfg).
Proof.
  unfold save_media_for_page, save_images_for_page, save_videos_for_page,
    select.
  repeat first [ apply raises_get_metadata | apply raises_save_each
               | raises_step ].
Qed.

Lemma raises_get_next doc cfg :
  raises no_exit (get_next_observation_id isdigit doc cfg).
Proof.
  unfold get_next_observation_id, select_one.
  apply raises_bind; [repeat raises_step | intros [a|]]; [|raises_step].
  apply raises_bind; [apply raises_getitem | intros href].
  destruct (search_id _ _ _); raises_step.
Qed.

Lemma raises_loop fuel : forall cfg o md, raises no_exit (loop fuel cfg o md).
Proof.
  induction fuel as [|fuel IH]; intros cfg [[|c i]|] md; cbn [run_loop];
    try apply raises_ret.
  - intros e; discriminate.
  - apply raises_bind; [apply raises_emit | intros _].
    apply raises_bind; [apply raises_get_doc | intros doc].
    apply raises_bind; [apply raises_save_media | intros section].
    apply raises_bind; [apply raises_get_next | intros next]. apply IH.
Qed.

Lemma raises_write_text made path text :
  raises no_exit (write_text W made path text).
Proof. unfold write_text. destruct (isdir_after W made _); raises_step. Qed.

Lemma raises_run fuel cfg : raises no_exit (run isdigit strptime W fuel cfg).
Proof.
  unfold run. apply raises_bind; [apply raises_loop | intros].
  apply raises_write_text.
Qed.

Lemma only_loop fuel :
  forall cfg o md,
    only (fun ev => ~ touches JOURNAL_PATH ev) (loop fuel cfg o md).
Proof.
  induction fuel as [|fuel IH]; intros cfg [[|c i]|] md; cbn [run_loop];
    try (constructor; fail).
  apply only_bind; [apply only_emit; simpl; auto | intros _].
  apply only_bind; [|intros doc].
  { unfold only. rewrite get_doc_trace. repeat constructor. simpl; auto. }
  apply only_bind; [|intros section].
  { eapply only_impl; [apply media_event_quiet | apply only_save_media]. }
  apply only_bind; [|intros next; apply IH].
  unfold only. rewrite get_next_trace. repeat constructor. simpl; auto.
Qed.

End Terminal.

Section TerminalTheorems.
Variable isdigit : N -> bool.
Variable strptime : pystr -> option datetime.
Variable W : World.

(** C1, as the code has it: the journal file is written exactly once, as the
    last effect of a walk that ends normally, with the journal the loop
    accumulated; a run that aborts with an error (or does not finish) never
    writes the journal file: what was accumulated before the failing page is
    not persisted. *)
Theorem journal_written_only_when_done (fuel : nat) (cfg : TapestryConfig) :
  match snd (run isdigit strptime W fuel cfg) with
  | Return _ =>
      exists tr0 md,
        run_loop isdigit strptime W fuel cfg
          (Some (first_observation_id cfg)) (journal_heading cfg)
        = (tr0, Return md)
        /\ fst (run isdigit strptime W fuel cfg)
           = tr0 ++ [WriteText JOURNAL_PATH md]
        /\ Forall (fun ev => ~ touches JOURNAL_PATH ev) tr0
  | _ =>
      Forall (fun ev => ~ touches JOURNAL_PATH ev)
        (fst (run isdigit strptime W fuel cfg))
  end.
Proof.
  pose proof (only_loop isdigit strptime W fuel cfg
                (Some (first_observation_id cfg)) (journal_heading cfg)) as H.
  unfold run, write_text. fold (journal_heading cfg). unfold only in H.
  destruct (run_loop _ _ _ _ _ _ _) as [tr0 [md|e|]]; simpl in *.
  - destruct (isdir_after W (made_dirs tr0) (dirname JOURNAL_PATH)); simpl.
    + exists tr0, md. repeat split; auto.
    + now rewrite app_nil_r.
  - exact H.
  - exact H.
Qed.

Lemma from_env_raises : raises no_exit (from_env W).
Proof.
  assert (H : forall k, raises no_exit (get_required_env_value W k)).
  { intros k. unfold get_required_env_value.
    destruct (getenv W k) as [[|c v]|]; raises_step. }
  unfold from_env. repeat first [ apply H | raises_step ].
Qed.

(** C2, as the code has it: the process exits with status 1 when the session
    is detected as expired (after printing the message), and with status 0
    exactly when the walk completes.  Any other error - of the configuration,
    a fetch, a parse, the navigation or a download - is not caught by the
    entry point: the exception propagates and the interpreter exits with
    status 1. *)
Theorem exit_status_of_main (fuel : nat) :
  let o := snd (main isdigit strptime W fuel) in
  match snd (from_env W) with
  | Return cfg =>
      match snd (run isdigit strptime W fuel cfg) with
      | Return _ => o = Return tt /\ exit_status o = Some 0%Z
      | Raise LoggedOutException =>
          o = Raise (SystemExit 1) /\ exit_status o = Some 1%Z
          /\ exists t,
               fst (main isdigit strptime W fuel)
               = t ++ [Print (py "ERROR: You appear to be logged out. Check cookie value.")]
      | Raise e => o = Raise e /\ exit_status o = Some 1%Z
      | OutOfFuel => o = OutOfFuel
      end
  | Raise e => o = Raise e /\ exit_status o = Some 1%Z
  | OutOfFuel => o = OutOfFuel
  end.
Proof.
  pose proof from_env_raises as Henv.
  unfold main. destruct (from_env W) as [t0 [cfg|e|]]; simpl.
  - pose proof (raises_run isdigit strptime W fuel cfg) as Hrun.
    destruct (run isdigit strptime W fuel cfg) as [t [[]|e|]]; simpl.
    + now split.
    + specialize (Hrun e eq_refl).
      destruct e; simpl; try (split; reflexivity).
      * repeat split. exists (t0 ++ t). now rewrite app_assoc.
      * exfalso. now apply (Hrun code).
    + reflexivity.
  - specialize (Henv e eq_refl).
    destruct e; simpl; try (split; reflexivity).
    exfalso. now apply (Henv code).
  - reflexivity.
Qed.

End TerminalTheorems.

(** ** The claims on the sample site *)

Lemma In_text_writes p t tr : In (WriteText p t) tr -> In (p, t) (text_writes tr).
Proof.
  intros H. unfold text_writes. apply in_flat_map.
  exists (WriteText p t). split; [exact H | now left].
Qed.

(** Page 3 is processed, page 2 cannot be fetched: the run aborts and the
    journal file is never written. *)
Lemma journal_lost_on_abort :
  ~ journal_flushed_on_abort Sample.isdigit Sample.strptime Sample.W_broken 10
      Sample.config.
Proof.
  intros H. destruct (H RequestException) as [md Hin]; [reflexivity|].
  apply In_text_writes in Hin.
  assert (E : text_writes
                (fst (run Sample.isdigit Sample.strptime Sample.W_broken 10
                        Sample.config)) = []) by (vm_compute; reflexivity).
  rewrite E in Hin. destruct Hin.
Qed.

(** Page 2 cannot be fetched: the session has not expired, yet the exit
    status is 1. *)
Lemma fetch_error_exits_nonzero :
  ~ exits_zero_unless_expired Sample.isdigit Sample.strptime Sample.W_broken 10.
Proof.
  intros [_ H].
  assert (Hne : ~ session_expired Sample.isdigit Sample.strptime
                    Sample.W_broken 10).
  { intros (cfg & Hcfg & Hrun).
    vm_compute in Hcfg. injection Hcfg as <-.
    vm_compute in Hrun. discriminate. }
  specialize (H Hne). vm_compute in H. discriminate.
Qed.

Example sample_statuses :
  exit_status (snd (main Sample.isdigit Sample.strptime Sample.W 10)) = Some 0%Z
  /\ exit_status (snd (main Sample.isdigit Sample.strptime Sample.W_expired 10))
     = Some 1%Z
  /\ exit_status (snd (main Sample.isdigit Sample.strptime Sample.W_broken 10))
     = Some 1%Z
  /\ snd (main Sample.isdigit Sample.strptime Sample.W_foreign 10)
     = Raise (RuntimeError (py "observation id not found")).
Proof. vm_compute. repeat split. Qed.

Lemma logged_out_detected_first_witness :
  get_metadata Sample.strptime Sample.expired
  = ([Select ".alert"], Raise LoggedOutException).
Proof.
  apply logged_out_detected_first.
  exists (Sample.tag " You have been logged out. ").
  split; [now left | reflexivity].
Defined.

Lemma malformed_page_parse_error_witness :
  (exists tr e,
      get_metadata Sample.strptime Sample.page_untitled = (tr, Raise e)
      /\ e = AttributeError /\ MetadataParseError e /\ ~ SessionExpiredError e)
  /\ (exists tr e,
         get_metadata Sample.strptime Sample.page_odd_caption = (tr, Raise e)
         /\ e = AttributeError /\ MetadataParseError e /\ ~ SessionExpiredError e).
Proof.
  split; apply malformed_page_parse_error.
  - intros alert [].
  - now left.
  - intros alert [<-|[]]. reflexivity.
  - right; right; right.
    exists (Sample.tag "Written by Ms Smith on 02 May 2023").
    split; reflexivity.
Defined.

Lemma journal_entry_round_trip_witness :
  exists h n c date_text d,
    hd_error (Sample.page3 "h1"%string) = Some h
    /\ hd_error (Sample.page3 ".page-note p"%string) = Some n
    /\ hd_error (Sample.page3 ".obs-metadata p"%string) = Some c
    /\ search_authored (strip (text c)) = Some (py "Ms Smith", date_text)
    /\ Sample.strptime date_text = Some d
    /\ capture_observation_info
         (mkMetadata (py "Art Day!") (py "We painted all day") (py "Ms Smith")
            (mkdate 2023 5 2 14 30))
       = render
           (mkEntry (strip (text h))
              (py "Ms Smith" ++ py ", " ++ strftime d "%-d %B %Y %I:%M%p")
              (collapse_line_breaks (strip (text n))))
    /\ ~ In LF (collapse_line_breaks (strip (text n))).
Proof.
  apply (journal_entry_round_trip Sample.strptime Sample.page3
           [Select ".alert"; Select "h1"; Select ".page-note p";
            Select ".obs-metadata p"]
           (mkMetadata (py "Art Day!") (py "We painted all day")
              (py "Ms Smith") (mkdate 2023 5 2 14 30))).
  vm_compute. reflexivity.
Defined.

Lemma previous_link_outcome_witness :
  (exists e,
      NavigationParseError e
      /\ run_loop Sample.isdigit Sample.strptime Sample.W_foreign 5
           Sample.config (Some (py "3")) (journal_heading Sample.config)
         = (page_trace Sample.config (py "3")
              (fst (save_media_for_page Sample.strptime Sample.W_foreign
                      Sample.page_foreign Sample.config)),
            Raise e))
  /\ run_loop Sample.isdigit Sample.strptime Sample.W 5 Sample.config
       (Some (py "1")) (journal_heading Sample.config)
     = (page_trace Sample.config (py "1")
          (fst (save_media_for_page Sample.strptime Sample.W Sample.page1
                  Sample.config)),
        Return (journal_heading Sample.config
                ++ Sample.section_of Sample.W Sample.page1)).
Proof.
  split.
  - apply (proj1 (previous_link_outcome Sample.isdigit Sample.strptime
                    Sample.W_foreign 4 Sample.config (py "3")
                    (journal_heading Sample.config) Sample.page_foreign
                    (fst (get_doc Sample.W_foreign (py "3") Sample.config))
                    (fst (save_media_for_page Sample.strptime Sample.W_foreign
                            Sample.page_foreign Sample.config))
                    (Sample.section_of Sample.W_foreign Sample.page_foreign)
                    eq_refl eq_refl eq_refl)
             (Sample.anchor (py "https://example.org/observation/2"))
             (py "https://example.org/observation/2")
             eq_refl eq_refl eq_refl).
  - apply (proj1 (proj2 (previous_link_outcome Sample.isdigit Sample.strptime
                    Sample.W 4 Sample.config (py "1")
                    (journal_heading Sample.config) Sample.page1
                    (fst (get_doc Sample.W (py "1") Sample.config))
                    (fst (save_media_for_page Sample.strptime Sample.W
                            Sample.page1 Sample.config))
                    (Sample.section_of Sample.W Sample.page1)
                    eq_refl eq_refl eq_refl))
             eq_refl).
Defined.

Lemma bare_link_no_digits pre post :
  Sample.base ++ py "/" = pre ++ (base_url Sample.config ++ py "/") ++ post ->
  digits_prefix Sample.isdigit post = [].
Proof.
  intros H. destruct post as [|c post]; [reflexivity|]. exfalso.
  apply (f_equal (@List.length N)) in H.
  change (base_url Sample.config) with Sample.base in H.
  rewrite (length_app pre), (length_app (Sample.base ++ py "/")) in H.
  simpl in H. lia.
Qed.

Lemma empty_identifier_ends_walk_witness :
  get_next_observation_id Sample.isdigit Sample.page_bare Sample.config
  = ([Select "li.previous a"], Return (Some []))
  /\ run_loop Sample.isdigit Sample.strptime Sample.W_bare 5 Sample.config
       (Some (py "3")) (journal_heading Sample.config)
     = (page_trace Sample.config (py "3")
          (fst (save_media_for_page Sample.strptime Sample.W_bare
                  Sample.page_bare Sample.config)),
        Return (journal_heading Sample.config
                ++ Sample.section_of Sample.W_bare Sample.page_bare))
  /\ page_requests
       (fst (run_loop Sample.isdigit Sample.strptime Sample.W_bare 5
               Sample.config (Some (py "3")) (journal_heading Sample.config)))
     = [base_url Sample.config ++ py "/" ++ py "3"]
  /\ (forall doc' cfg' t next,
         get_next_observation_id Sample.isdigit doc' cfg'
         = (t, Return (Some next)) ->
         Forall (fun c => Sample.isdigit c = true) next).
Proof.
  apply (empty_identifier_ends_walk Sample.isdigit Sample.strptime
           Sample.W_bare 4 Sample.config (py "3")
           (journal_heading Sample.config) Sample.page_bare
           (fst (get_doc Sample.W_bare (py "3") Sample.config))
           (fst (save_media_for_page Sample.strptime Sample.W_bare
                   Sample.page_bare Sample.config))
           (Sample.section_of Sample.W_bare Sample.page_bare)
           (Sample.anchor (Sample.base ++ py "/"))
           (Sample.base ++ py "/")
           eq_refl eq_refl eq_refl eq_refl eq_refl eq_refl
           bare_link_no_digits).
Defined.

Lemma sample_chain :
  chain Sample.isdigit Sample.strptime Sample.W Sample.config
    (first_observation_id Sample.config) sample_pages.
Proof.
  eapply chain_link; try reflexivity.
  eapply chain_link; try reflexivity.
  apply chain_last; reflexivity.
Defined.

Lemma chain_walk_witness :
  exists tr,
    run_loop Sample.isdigit Sample.strptime Sample.W 3 Sample.config
      (Some (first_observation_id Sample.config))
      (journal_heading Sample.config)
    = (tr, Return (journal_heading Sample.config
                   ++ List.concat (map visit_section sample_pages)))
    /\ page_requests tr
       = map (fun v => base_url Sample.config ++ py "/" ++ visit_id v)
           sample_pages
    /\ printed tr = map visit_id sample_pages
    /\ List.length (map visit_section sample_pages)
       = List.length (page_requests tr)
    /\ Forall (fun v => exists t m,
                   get_metadata Sample.strptime (visit_doc v) = (t, Return m)
                   /\ visit_section v = capture_observation_info m)
         sample_pages.
Proof.
  apply (chain_walk Sample.isdigit Sample.strptime Sample.W 3 Sample.config
           sample_pages sample_chain).
  simpl. lia.
Defined.

(** * Part III: further properties of the program *)

(** ** Configuration *)

Lemma get_required_env_value_cases W k :
  get_required_env_value W k
  = match getenv W k with
    | Some (c :: v) => ([], Return (c :: v))
    | _ =>
        ([], Raise (RuntimeError
                      (py "Environment variable " ++ repr k
                       ++ py " is required")))
    end.
Proof.
  unfold get_required_env_value. now destruct (getenv W k) as [[|c v]|].
Qed.

(** X1: [from_env] returns a configuration exactly when each of the four
    variables is set to a non-empty value; the configuration then holds
    these values, the base URL
    https://tapestryjournal.com/s/<school>/observation and the timeout 60. *)
Theorem from_env_returns_iff (W : World) (cfg : TapestryConfig) :
  snd (from_env W) = Return cfg
  <-> (getenv W EnvVarNames.TAPESTRY_SCHOOL = Some (school cfg)
       /\ getenv W EnvVarNames.TAPESTRY_COOKIE_VALUE = Some (cookie_value cfg)
       /\ getenv W EnvVarNames.TAPESTRY_FIRST_OBSERVATION_ID
          = Some (first_observation_id cfg)
       /\ getenv W EnvVarNames.TAPESTRY_NAME = Some (name cfg))
      /\ (school cfg <> [] /\ cookie_value cfg <> []
          /\ first_observation_id cfg <> [] /\ name cfg <> [])
      /\ base_url cfg
         = py "https://tapestryjournal.com/s/" ++ school cfg ++ py "/observation"
      /\ timeout cfg = 60%Z.
Proof.
  unfold from_env. rewrite !get_required_env_value_cases. split.
  - destruct (getenv W EnvVarNames.TAPESTRY_SCHOOL) as [[|c1 v1]|];
      simpl; try discriminate.
    destruct (getenv W EnvVarNames.TAPESTRY_COOKIE_VALUE) as [[|c2 v2]|];
      simpl; try discriminate.
    destruct (getenv W EnvVarNames.TAPESTRY_FIRST_OBSERVATION_ID) as [[|c3 v3]|];
      simpl; try discriminate.
    destruct (getenv W EnvVarNames.TAPESTRY_NAME) as [[|c4 v4]|];
      simpl; try discriminate.
    intros [= <-]. simpl. repeat split; discriminate.
  - intros ((H1 & H2 & H3 & H4) & (N1 & N2 & N3 & N4) & Hb & Ht).
    rewrite H1, H2, H3, H4. destruct cfg as [cv fo nm sc bu tm]. simpl in *.
    destruct sc; [contradiction|]. destruct cv; [contradiction|].
    destruct fo; [contradiction|]. destruct nm; [contradiction|].
    simpl. now subst.
Qed.

(** X2: when one of the required variables is unset or empty, [main] raises
    the runtime error that names the first such variable (in the order
    school, cookie, first observation, name) and has no effect at all: no
    request, no output, no file. *)
Theorem main_stops_on_missing_variable
    (isdigit : N -> bool) (strptime : pystr -> option datetime) (W : World)
    (fuel : nat) (k : string) :
  find (missingb W) required_variables = Some k ->
  main isdigit strptime W fuel
  = ([], Raise (RuntimeError (required_message k))).
Proof.
  unfold main, from_env, required_variables, missingb. simpl find.
  rewrite !get_required_env_value_cases.
  destruct (getenv W EnvVarNames.TAPESTRY_SCHOOL) as [[|c1 v1]|];
    try (intros [= <-]; reflexivity).
  destruct (getenv W EnvVarNames.TAPESTRY_COOKIE_VALUE) as [[|c2 v2]|];
    try (intros [= <-]; reflexivity).
  destruct (getenv W EnvVarNames.TAPESTRY_FIRST_OBSERVATION_ID) as [[|c3 v3]|];
    try (intros [= <-]; reflexivity).
  destruct (getenv W EnvVarNames.TAPESTRY_NAME) as [[|c4 v4]|];
    intros [= <-]; reflexivity.
Qed.

Lemma main_stops_on_missing_variable_witness :
  main Sample.isdigit Sample.strptime SampleExtra.W_anonymous 10
  = ([], Raise (RuntimeError (required_message "TAPESTRY_NAME"))).
Proof.
  apply main_stops_on_missing_variable. reflexivity.
Defined.

(** ** Fetching a page *)

Section FetchFacts.
Variable isdigit : N -> bool.
Variable strptime : pystr -> option datetime.
Variable W : World.

Lemma get_doc_cases id cfg :
  get_doc W id cfg
  = ([HttpGet (page_url cfg id) (session_cookie cfg) (timeout cfg)],
     match http_get W (page_url cfg id) (session_cookie cfg) with
     | None => Raise RequestException
     | Some r =>
         if ((400 <=? status_code r) && (status_code r <? 600))%Z
         then Raise (HTTPError (status_code r))
         else Return (html_parser W (resp_text r))
     end).
Proof.
  unfold get_doc, requests_get, raise_for_status, page_url, session_cookie.
  simpl. destruct (http_get W _ _) as [r|]; simpl; [|reflexivity].
  now destruct ((400 <=? status_code r)%Z && (status_code r <? 600)%Z).
Qed.

(** X3: when the page cannot be fetched - the transport fails, or the site
    answers with a status from 400 to 599 - the iteration stops right after
    the request: the walk raises the transport error or the HTTP error with
    that status, no document is queried, nothing is downloaded and the
    journal is not extended. *)
Theorem fetch_failure_aborts_walk (fuel : nat) (cfg : TapestryConfig)
    (id md : pystr) :
  truthy id = true ->
  http_get W (page_url cfg id) (session_cookie cfg) = None
  \/ (exists r, http_get W (page_url cfg id) (session_cookie cfg) = Some r
                /\ (400 <= status_code r < 600)%Z) ->
  exists e,
    run_loop isdigit strptime W (S fuel) cfg (Some id) md
    = ([Print id; HttpGet (page_url cfg id) (session_cookie cfg) (timeout cfg)],
       Raise e)
    /\ match http_get W (page_url cfg id) (session_cookie cfg) with
       | None => e = RequestException
       | Some r => e = HTTPError (status_code r)
       end.
Proof.
  intros Hid Hfail. destruct id as [|c i]; [discriminate|].
  cbn [run_loop]. rewrite get_doc_cases.
  destruct Hfail as [Hnone | (r & Hr & Hlo & Hhi)].
  - rewrite Hnone. exists RequestException. now split.
  - rewrite Hr.
    apply Z.leb_le in Hlo. apply Z.ltb_lt in Hhi. rewrite Hlo, Hhi. simpl.
    exists (HTTPError (status_code r)). now split.
Qed.

End FetchFacts.

Lemma fetch_failure_aborts_walk_witness :
  (exists e,
      run_loop Sample.isdigit Sample.strptime Sample.W_broken 3 Sample.config
        (Some (py "2")) (journal_heading Sample.config)
      = ([Print (py "2");
          HttpGet (page_url Sample.config (py "2"))
            (session_cookie Sample.config) (timeout Sample.config)],
         Raise e)
      /\ match http_get Sample.W_broken (page_url Sample.config (py "2"))
                 (session_cookie Sample.config) with
         | None => e = RequestException
         | Some r => e = HTTPError (status_code r)
         end)
  /\ (exists e,
         run_loop Sample.isdigit Sample.strptime SampleExtra.W_404 3
           Sample.config (Some (py "3")) (journal_heading Sample.config)
         = ([Print (py "3");
             HttpGet (page_url Sample.config (py "3"))
               (session_cookie Sample.config) (timeout Sample.config)],
            Raise e)
         /\ match http_get SampleExtra.W_404 (page_url Sample.config (py "3"))
                    (session_cookie Sample.config) with
            | None => e = RequestException
            | Some r => e = HTTPError (status_code r)
            end).
Proof.
  split.
  - apply fetch_failure_aborts_walk; [reflexivity | left; reflexivity].
  - apply fetch_failure_aborts_walk; [reflexivity | right].
    exists (mkResponse 404 (py "three") []).
    split; [reflexivity | simpl; lia].
Defined.

(** ** Extraction of the metadata *)

Section ExtractionFacts.

Lemma lstrip_suffix (s : pystr) : exists a, s = a ++ lstrip s.
Proof.
  induction s as [|c s [a IH]]; [now exists []|]. simpl.
  destruct (isspace c); [|now exists []].
  exists (c :: a). simpl. now rewrite <- IH.
Qed.

Lemma strip_infix (s : pystr) : exists a b, s = a ++ strip s ++ b.
Proof.
  destruct (lstrip_suffix s) as [a Ha].
  destruct (lstrip_suffix (rev (lstrip s))) as [b Hb].
  exists a, (rev b). unfold strip, rstrip.
  rewrite <- rev_app_distr, <- Hb, rev_involutive. exact Ha.
Qed.

Lemma contains_of_strip (p s : pystr) :
  contains p (strip s) = true -> contains p s = true.
Proof.
  intros H. apply contains_spec in H as (x & y & Hs).
  destruct (strip_infix s) as (a & b & Hab).
  apply contains_spec. exists (a ++ x), (y ++ b).
  rewrite Hab at 1. rewrite Hs. now rewrite <- !app_assoc.
Qed.

Lemma check_alerts_raises_inv (alerts : list Tag) t e :
  check_alerts alerts = (t, Raise e) ->
  e = LoggedOutException
  /\ exists alert, In alert alerts
                   /\ contains (py "logged out") (strip (text alert)) = true.
Proof.
  induction alerts as [|a rest IH]; simpl; [discriminate|].
  destruct (truthy (strip (text a))).
  - destruct (contains (py "logged out") (strip (text a))) eqn:E.
    + intros [= _ <-]. split; [reflexivity|]. exists a. now split; [left|].
    + intros H. destruct (IH H) as (He & alert & Hin & Hc).
      split; [exact He|]. exists alert. now split; [right|].
  - intros H. destruct (IH H) as (He & alert & Hin & Hc).
    split; [exact He|]. exists alert. now split; [right|].
Qed.

Lemma line_of_no_LF (s : pystr) : ~ In LF s -> line_of s = s.
Proof.
  induction s as [|c s IH]; [reflexivity|]. intros H. simpl.
  destruct (N.eqb_spec c LF) as [->|Hc]; [exfalso; apply H; now left|].
  rewrite IH; [reflexivity|]. intros Hin. apply H. now right.
Qed.

Lemma rsplit_none (pat s : pystr) :
  contains pat s = false -> rsplit pat s = None.
Proof.
  induction s as [|c s IH]; [reflexivity|]. cbn [contains rsplit].
  intros H. apply orb_false_elim in H as [H1 H2].
  now rewrite (IH H2), H1.
Qed.

(** The greedy split is at the last occurrence of the separator. *)
Lemma rsplit_last (p0 : N) (pt a d : pystr) :
  contains (p0 :: pt) (pt ++ d) = false ->
  rsplit (p0 :: pt) (a ++ (p0 :: pt) ++ d) = Some (a, d).
Proof.
  intros H. induction a as [|x a IH].
  - cbn [app rsplit]. rewrite (rsplit_none _ _ H).
    change (p0 :: pt ++ d) with ((p0 :: pt) ++ d).
    now rewrite startswith_app, skipn_length_app.
  - cbn [app rsplit]. cbn [app] in IH. now rewrite IH.
Qed.

Lemma search_authored_caption (a d : pystr) :
  ~ In LF a -> ~ In LF d ->
  contains (py " added ") (py "added " ++ d) = false ->
  search_authored (py "Authored by " ++ a ++ py " added " ++ d) = Some (a, d).
Proof.
  intros Ha Hd Hlast.
  assert (Hline : ~ In LF (a ++ py " added " ++ d)).
  { intros Hin. apply in_app_or in Hin as [Hin|Hin]; [now apply Ha|].
    apply in_app_or in Hin as [Hin|Hin]; [|now apply Hd].
    simpl in Hin. unfold LF in Hin.
    repeat (destruct Hin as [Hin|Hin]; [discriminate|]). exact Hin. }
  assert (Hhere : (if startswith (py "Authored by ")
                        (py "Authored by " ++ a ++ py " added " ++ d)
                   then rsplit (py " added ")
                          (line_of (skipn 12
                             (py "Authored by " ++ a ++ py " added " ++ d)))
                   else None) = Some (a, d)).
  { rewrite startswith_app.
    change 12%nat with (List.length (py "Authored by ")).
    rewrite skipn_length_app, (line_of_no_LF _ Hline).
    apply (rsplit_last 32%N (py "added ") a d Hlast). }
  destruct (py "Authored by " ++ a ++ py " added " ++ d) as [|c s] eqn:E;
    cbn [search_authored]; now rewrite Hhere.
Qed.

End ExtractionFacts.

(** X4: metadata extraction raises the session-expiry exception only when
    an alert region of the document has a text that includes "logged out",
    and always then: an alert with any other text, or an empty one, never
    stops the extraction. *)
Theorem logged_out_iff_alert
    (strptime : pystr -> option datetime) (doc : PageDocument) :
  snd (get_metadata strptime doc) = Raise LoggedOutException
  <-> exists alert, In alert (doc ".alert"%string)
                    /\ contains (py "logged out") (text alert) = true.
Proof.
  split.
  - unfold get_metadata, select, select_one. simpl.
    destruct (check_alerts (doc ".alert"%string)) as [t [[]|e|]] eqn:Ec; simpl.
    + destruct (hd_error (doc "h1"%string)); simpl; [|discriminate].
      destruct (hd_error (doc ".page-note p"%string)); simpl; [|discriminate].
      destruct (hd_error (doc ".obs-metadata p"%string)); simpl; [|discriminate].
      destruct (search_authored _) as [[g1 g2]|]; simpl; [|discriminate].
      destruct (strptime g2); simpl; discriminate.
    + intros _. destruct (check_alerts_raises_inv _ _ _ Ec)
        as (_ & alert & Hin & Hc).
      exists alert. split; [exact Hin | now apply contains_of_strip].
    + discriminate.
  - intros (alert & Hin & Hc).
    unfold get_metadata, select. simpl.
    rewrite check_alerts_raises; [reflexivity|].
    exists alert. split; [exact Hin | now apply logged_out_strip].
Qed.

(** X5: on a page that passes the session check and has a heading, a note
    paragraph and a caption of the form "Authored by <artist> added <date>"
    (artist and date on one line, no further " added " after the
    separator, the date accepted by [strptime]), extraction returns the
    stripped heading as title, the stripped note with line breaks replaced
    by spaces as description, the artist and the parsed date.  An artist
    name may itself contain " added ": the split is at the last one. *)
Theorem well_formed_page_extracted
    (strptime : pystr -> option datetime) (doc : PageDocument)
    (h n c : Tag) (a d : pystr) (dt : datetime) :
  passes_session_check doc ->
  hd_error (doc "h1"%string) = Some h ->
  hd_error (doc ".page-note p"%string) = Some n ->
  hd_error (doc ".obs-metadata p"%string) = Some c ->
  strip (text c) = py "Authored by " ++ a ++ py " added " ++ d ->
  ~ In LF a -> ~ In LF d ->
  contains (py " added ") (py "added " ++ d) = false ->
  strptime d = Some dt ->
  get_metadata strptime doc
  = ([Select ".alert"; Select "h1"; Select ".page-note p";
      Select ".obs-metadata p"],
     Return (mkMetadata (strip (text h))
               (collapse_line_breaks (strip (text n))) a dt)).
Proof.
  intros Hpass Hh Hn Hc Hcap Ha Hd Hlast Hdt.
  unfold get_metadata, select, select_one. simpl.
  rewrite (check_alerts_passes _ Hpass). simpl.
  rewrite Hh. simpl. rewrite Hn. simpl. rewrite Hc. simpl.
  rewrite Hcap, (search_authored_caption a d Ha Hd Hlast), Hdt. simpl.
  unfold collapse_line_breaks. now rewrite replace_single.
Qed.

Lemma no_LF_dec (s : pystr) : forallb (fun c => negb (c =? LF)%N) s = true -> ~ In LF s.
Proof.
  intros H Hin. rewrite forallb_forall in H. specialize (H _ Hin).
  now rewrite N.eqb_refl in H.
Qed.

Lemma well_formed_page_extracted_witness :
  get_metadata Sample.strptime Sample.page3
  = ([Select ".alert"; Select "h1"; Select ".page-note p";
      Select ".obs-metadata p"],
     Return (mkMetadata (strip (py " Art Day! "))
               (collapse_line_breaks
                  (strip (py "We painted" ++ [LF] ++ py "all day")))
               (py "Ms Smith") (mkdate 2023 5 2 14 30))).
Proof.
  apply (well_formed_page_extracted Sample.strptime Sample.page3
           (Sample.tag " Art Day! ")
           (mkTag (py "We painted" ++ [LF] ++ py "all day") [])
           (Sample.tag "Authored by Ms Smith added 02 May 2023 02:30 PM")
           (py "Ms Smith") (py "02 May 2023 02:30 PM")
           (mkdate 2023 5 2 14 30)).
  - intros alert [].
  - reflexivity.
  - reflexivity.
  - reflexivity.
  - reflexivity.
  - apply no_LF_dec. reflexivity.
  - apply no_LF_dec. reflexivity.
  - reflexivity.
  - reflexivity.
Defined.

(** ** Downloads *)

Lemma byte_writes_app a b : byte_writes (a ++ b) = byte_writes a ++ byte_writes b.
Proof. apply flat_map_app. Qed.

Lemma asset_requests_app a b :
  asset_requests (a ++ b) = asset_requests a ++ asset_requests b.
Proof. apply flat_map_app. Qed.

Lemma made_dirs_app a b : made_dirs (a ++ b) = made_dirs a ++ made_dirs b.
Proof. apply flat_map_app. Qed.

Section DownloadFacts.
Variable W : World.

(** One round of the download loop on an asset that is served. *)
Lemma save_each_served video idx item rest m cfg url r :
  served W item url r ->
  save_each W video idx (item :: rest) m cfg
  = (HttpGet url [] (timeout cfg)
     :: MakeDirs (dirname (get_file_name m idx video))
     :: WriteBytes (get_file_name m idx video) (content r)
     :: fst (save_each W video (idx + 1) rest m cfg),
     snd (save_each W video (idx + 1) rest m cfg)).
Proof.
  intros [Hsrc Hget]. cbn [save_each]. unfold getitem, requests_get.
  rewrite Hsrc. cbn [bind ret emit app]. rewrite Hget. cbn [bind ret emit app].
  now destruct (save_each W video (idx + 1) rest m cfg).
Qed.

Lemma save_each_all_served video m cfg items urs :
  Forall2 (fun item ur => served W item (fst ur) (snd ur)) items urs ->
  forall start,
    snd (save_each W video (Z.of_nat start) items m cfg) = Return tt
    /\ byte_writes (fst (save_each W video (Z.of_nat start) items m cfg))
       = files_from m video start (map snd urs)
    /\ asset_requests (fst (save_each W video (Z.of_nat start) items m cfg))
       = map fst urs
    /\ made_dirs (fst (save_each W video (Z.of_nat start) items m cfg))
       = map (fun f => dirname (fst f)) (files_from m video start (map snd urs)).
Proof.
  induction 1 as [|item [url r] items urs Hs _ IH]; intros start.
  - now repeat split.
  - rewrite (save_each_served video _ item items m cfg url r Hs).
    replace (Z.of_nat start + 1)%Z with (Z.of_nat (S start)) by lia.
    destruct (IH (S start)) as (H1 & H2 & H3 & H4).
    cbn [fst snd map files_from]. unfold byte_writes, asset_requests, made_dirs in *.
    cbn [flat_map app]. rewrite H2, H3, H4. now repeat split.
Qed.

Lemma save_each_failure video m cfg items urs bad rest :
  Forall2 (fun item ur => served W item (fst ur) (snd ur)) items urs ->
  forall start,
    byte_writes
      (fst (save_each W video (Z.of_nat start) (items ++ bad :: rest) m cfg))
    = files_from m video start (map snd urs)
      ++ match assoc "src" (attrs bad) with
         | Some url =>
             match http_get W url [] with
             | Some r =>
                 byte_writes
                   (fst (save_each W video
                           (Z.of_nat (start + List.length items))
                           (bad :: rest) m cfg))
             | None => []
             end
         | None => []
         end
    /\ match assoc "src" (attrs bad) with
       | Some url =>
           match http_get W url [] with
           | Some r => True
           | None =>
               snd (save_each W video (Z.of_nat start)
                      (items ++ bad :: rest) m cfg) = Raise RequestException
           end
       | None =>
           snd (save_each W video (Z.of_nat start) (items ++ bad :: rest) m cfg)
           = Raise (KeyError "src")
       end.
Proof.
  induction 1 as [|item [url r] items urs Hs _ IH]; intros start.
  - cbn [app map files_from List.length]. rewrite Nat.add_0_r.
    cbn [save_each]. unfold getitem, requests_get.
    destruct (assoc "src" (attrs bad)) as [url|]; cbn [bind ret emit app raise];
      [|now split].
    destruct (http_get W url []) as [r|]; cbn [bind ret emit app raise];
      [|now split].
    now split.
  - cbn [app]. rewrite (save_each_served video _ item _ m cfg url r Hs).
    replace (Z.of_nat start + 1)%Z with (Z.of_nat (S start)) by lia.
    destruct (IH (S start)) as (H1 & H2).
    cbn [fst snd map files_from List.length]. unfold byte_writes in *.
    cbn [flat_map app]. rewrite H1.
    replace (S start + List.length items)%nat
      with (start + S (List.length items))%nat by lia.
    split; [reflexivity | exact H2].
Qed.

End DownloadFacts.

Lemma only_selects_get_metadata strptime doc :
  only (fun ev => exists css, ev = Select css) (get_metadata strptime doc).
Proof.
  unfold get_metadata, select, select_one.
  repeat first [ apply only_check_alerts | apply only_text_of | apply only_ret
               | apply only_emit; eexists; reflexivity
               | apply only_bind; [|intros] ].
  destruct (search_authored _) as [[g1 g2]|]; [|constructor].
  destruct (strptime g2); constructor.
Qed.

Lemma selects_are_silent (tr : list event) :
  Forall (fun ev => exists css, ev = Select css) tr ->
  byte_writes tr = [] /\ asset_requests tr = [] /\ made_dirs tr = []
  /\ page_requests tr = [].
Proof.
  induction 1 as [|ev tr [css ->] _ (H1 & H2 & H3 & H4)]; [now repeat split|].
  unfold byte_writes, asset_requests, made_dirs, page_requests in *.
  cbn [flat_map app]. now rewrite H1, H2, H3, H4.
Qed.

Section PageMedia.
Variable strptime : pystr -> option datetime.
Variable W : World.

(** X6: on a page whose metadata is extracted and whose gallery assets all
    have a [src] that the site serves (with whatever status), the page is
    saved: one file per image, then one file per video, each kind numbered
    from 0 in document order, named by [get_file_name] and holding the body
    of the response; the assets are requested in that order, without the
    session cookie; the value returned is the journal entry of the page. *)
Theorem page_media_saved (doc : PageDocument) (cfg : TapestryConfig)
    (m : Metadata) (images videos : list (pystr * Response)) :
  snd (get_metadata strptime doc) = Return m ->
  Forall2 (fun item ur => served W item (fst ur) (snd ur))
    (doc ".obs-media-gallery-main img"%string) images ->
  Forall2 (fun item ur => served W item (fst ur) (snd ur))
    (doc ".obs-media-gallery-main .obs-video-wrapper video source"%string)
    videos ->
  let r := save_media_for_page strptime W doc cfg in
  snd r = Return (capture_observation_info m)
  /\ byte_writes (fst r)
     = files_from m false 0 (map snd images)
       ++ files_from m true 0 (map snd videos)
  /\ asset_requests (fst r) = map fst images ++ map fst videos
  /\ page_requests (fst r) = [].
Proof.
  intros Hm Himg Hvid r. subst r.
  destruct (save_each_all_served W false m cfg _ _ Himg 0) as (I1 & I2 & I3 & _).
  destruct (save_each_all_served W true m cfg _ _ Hvid 0) as (V1 & V2 & V3 & _).
  pose proof (only_selects_get_metadata strptime doc) as Hsel.
  apply selects_are_silent in Hsel as (S1 & S2 & _ & _).
  pose proof (only_save_media strptime W doc cfg) as Hmedia.
  apply media_events_silent in Hmedia as (Hpage & _ & _).
  split; [|split; [|split; [|exact Hpage]]];
    unfold save_media_for_page, save_images_for_page, save_videos_for_page,
      select in *; cbn [bind emit ret app fst snd] in *;
    destruct (get_metadata strptime doc) as [tm om]; cbn [snd] in Hm; subst om;
    cbn [bind emit ret app fst snd] in *; change (Z.of_nat 0) with 0%Z in *;
    destruct (save_each W false 0 _ m cfg) as [ti oi]; cbn [fst snd] in *;
    subst oi; cbn [bind];
    destruct (save_each W true 0 _ m cfg) as [tv ov]; cbn [fst snd] in *;
    subst ov; cbn [bind ret app fst snd].
  - reflexivity.
  - unfold byte_writes in *. cbn [flat_map app].
    rewrite !flat_map_app, S1, I2, V2. cbn [flat_map]. now rewrite app_nil_r.
  - unfold asset_requests in *. cbn [flat_map app].
    rewrite !flat_map_app, S2, I3, V3. cbn [flat_map]. now rewrite app_nil_r.
Qed.

(** X7: when an asset of a page has no [src] attribute, or its request
    fails, the download loop stops there: exactly the files of the assets
    before it have been written, and the exception is the [KeyError] for
    "src", or the transport error. *)
Theorem download_failure_keeps_earlier_files (video : bool) (m : Metadata)
    (cfg : TapestryConfig) (items : list Tag) (urs : list (pystr * Response))
    (bad : Tag) (rest : list Tag) :
  Forall2 (fun item ur => served W item (fst ur) (snd ur)) items urs ->
  assoc "src" (attrs bad) = None
  \/ (exists url, assoc "src" (attrs bad) = Some url
                  /\ http_get W url [] = None) ->
  let r := save_each W video 0 (items ++ bad :: rest) m cfg in
  byte_writes (fst r) = files_from m video 0 (map snd urs)
  /\ snd r = Raise (match assoc "src" (attrs bad) with
                    | None => KeyError "src"
                    | Some _ => RequestException
                    end).
Proof.
  intros Hok Hbad r. subst r.
  destruct (save_each_failure W video m cfg items urs bad rest Hok 0)
    as (H1 & H2).
  change (Z.of_nat 0) with 0%Z in *.
  destruct Hbad as [Hnone | (url & Hsrc & Hget)].
  - rewrite Hnone in *. rewrite app_nil_r in H1. now split.
  - rewrite Hsrc in *. rewrite Hget in *. rewrite app_nil_r in H1. now split.
Qed.

(** X8: when metadata extraction fails - session expired or page malformed -
    the page is abandoned before any download: the only events are the two
    gallery queries and the queries of the extraction; no asset is
    requested, no directory created, no file written. *)
Theorem failed_extraction_downloads_nothing (doc : PageDocument)
    (cfg : TapestryConfig) (e : exn) :
  snd (get_metadata strptime doc) = Raise e ->
  let r := save_media_for_page strptime W doc cfg in
  r = (Select ".obs-media-gallery-main img"
       :: Select ".obs-media-gallery-main .obs-video-wrapper video source"
       :: fst (get_metadata strptime doc),
       Raise e)
  /\ asset_requests (fst r) = [] /\ made_dirs (fst r) = []
  /\ byte_writes (fst r) = [].
Proof.
  intros He r. subst r.
  pose proof (only_selects_get_metadata strptime doc) as Hsel.
  apply selects_are_silent in Hsel as (S1 & S2 & S3 & _).
  unfold save_media_for_page, select. cbn [bind emit ret app].
  destruct (get_metadata strptime doc) as [tm om]. cbn [fst snd] in *. subst om.
  cbn [bind app fst snd].
  unfold asset_requests, made_dirs, byte_writes in *. cbn [flat_map app].
  now rewrite S1, S2, S3.
Qed.

End PageMedia.

Lemma page_media_saved_witness :
  let r := save_media_for_page Sample.strptime Sample.W Sample.page3
             Sample.config in
  snd r = Return (capture_observation_info SampleExtra.metadata3)
  /\ byte_writes (fst r)
     = files_from SampleExtra.metadata3 false 0
         (map snd [(py "https://cdn.example/a.jpg", Sample.ok "");
                   (py "https://cdn.example/b.jpg", Sample.ok "")])
       ++ files_from SampleExtra.metadata3 true 0
            (map snd [(py "https://cdn.example/v.mp4", Sample.ok "")])
  /\ asset_requests (fst r)
     = map fst [(py "https://cdn.example/a.jpg", Sample.ok "");
                (py "https://cdn.example/b.jpg", Sample.ok "")]
       ++ map fst [(py "https://cdn.example/v.mp4", Sample.ok "")]
  /\ page_requests (fst r) = [].
Proof.
  apply page_media_saved.
  - reflexivity.
  - repeat constructor.
  - repeat constructor.
Defined.

Lemma download_failure_keeps_earlier_files_witness :
  let r := save_each SampleExtra.W_lost_asset false 0
             ([Sample.src "https://cdn.example/a.jpg"]
              ++ Sample.src "https://cdn.example/b.jpg" :: [])
             SampleExtra.metadata3 Sample.config in
  byte_writes (fst r)
  = files_from SampleExtra.metadata3 false 0
      (map snd [(py "https://cdn.example/a.jpg", Sample.ok "")])
  /\ snd r
     = Raise (match assoc "src"
                      (attrs (Sample.src "https://cdn.example/b.jpg")) with
              | None => KeyError "src"
              | Some _ => RequestException
              end).
Proof.
  apply download_failure_keeps_earlier_files.
  - repeat constructor.
  - right. exists (py "https://cdn.example/b.jpg"). split; reflexivity.
Defined.

Lemma failed_extraction_downloads_nothing_witness :
  let r := save_media_for_page Sample.strptime Sample.W Sample.expired
             Sample.config in
  r = (Select ".obs-media-gallery-main img"
       :: Select ".obs-media-gallery-main .obs-video-wrapper video source"
       :: fst (get_metadata Sample.strptime Sample.expired),
       Raise LoggedOutException)
  /\ asset_requests (fst r) = [] /\ made_dirs (fst r) = []
  /\ byte_writes (fst r) = [].
Proof.
  apply failed_extraction_downloads_nothing. reflexivity.
Defined.

(** ** File names, again *)

Section NameFacts.

Lemma digits_of_uint_inj (d d' : Decimal.uint) :
  digits_of_uint d = digits_of_uint d' -> d = d'.
Proof.
  revert d'. induction d; intros d' H; destruct d'; simpl in H;
    try discriminate; try reflexivity;
    injection H as H; f_equal; auto.
Qed.

Lemma digits_of_uint_no_minus (d : Decimal.uint) (s : pystr) :
  digits_of_uint d <> 45%N :: s.
Proof. destruct d; simpl; discriminate. Qed.

Lemma str_of_int_inj (z z' : Z) : str_of_int z = str_of_int z' -> z = z'.
Proof.
  unfold str_of_int.
  destruct (Z.to_int z) as [d|d] eqn:E; destruct (Z.to_int z') as [d'|d'] eqn:E';
    intros H.
  - apply digits_of_uint_inj in H. subst d'.
    apply DecimalZ.to_int_inj. congruence.
  - exfalso. now apply (digits_of_uint_no_minus d (digits_of_uint d')).
  - exfalso. symmetry in H.
    now apply (digits_of_uint_no_minus d' (digits_of_uint d)).
  - injection H as H. apply digits_of_uint_inj in H. subst d'.
    apply DecimalZ.to_int_inj. congruence.
Qed.

End NameFacts.

Lemma get_file_name_inj (m : Metadata) (i j : Z) (v v' : bool) :
  (0 <= i)%Z -> (0 <= j)%Z ->
  get_file_name m i v = get_file_name m j v' -> i = j /\ v = v'.
Proof.
  intros Hi Hj H. rewrite !get_file_name_eq in H.
  do 4 (apply app_inv_head in H).
  assert (Hv : v = v').
  { apply (f_equal (fun l => last l 0%N)) in H.
    rewrite !last_app_nonempty in H by (destruct v, v'; discriminate).
    destruct v, v'; try reflexivity; discriminate H. }
  subst v'. split; [|reflexivity].
  apply app_inv_tail in H.
  destruct (Z.ltb_spec 0 i) as [Hi'|Hi'], (Z.ltb_spec 0 j) as [Hj'|Hj'];
    try discriminate H; [|lia].
  injection H as H. now apply str_of_int_inj.
Qed.

(** X9: within a page no two files share a name: for the same metadata, two
    assets that differ in their (non-negative) ordinal or in their kind get
    different file names, so no asset of a page overwrites another. *)
Theorem file_names_distinct (m : Metadata) (i j : Z) (v v' : bool) :
  (0 <= i)%Z -> (0 <= j)%Z -> i <> j \/ v <> v' ->
  get_file_name m i v <> get_file_name m j v'.
Proof.
  intros Hi Hj Hne H.
  destruct (get_file_name_inj m i j v v' Hi Hj H) as [Hij Hv].
  destruct Hne; contradiction.
Qed.

Lemma file_names_distinct_witness :
  get_file_name SampleExtra.metadata3 0 false
  <> get_file_name SampleExtra.metadata3 1 false
  /\ get_file_name SampleExtra.metadata3 0 false
     <> get_file_name SampleExtra.metadata3 0 true.
Proof.
  split.
  - apply file_names_distinct; [lia | lia | left; discriminate].
  - apply file_names_distinct; [lia | lia | right; discriminate].
Defined.

(** ** Directories *)

Section DirectoryFacts.

Lemma upto_last_slash_rev_skip (a b : pystr) :
  Forall no_slash a -> upto_last_slash_rev (a ++ b) = upto_last_slash_rev b.
Proof.
  induction 1 as [|c a Hc _ IH]; [reflexivity|]. cbn [app upto_last_slash_rev].
  destruct (N.eqb_spec c 47); [contradiction | exact IH].
Qed.

Lemma dirname_in_images (rest : pystr) :
  Forall no_slash rest -> dirname (IMAGES_DIR ++ rest) = py "./images".
Proof.
  intros H. unfold dirname. rewrite rev_app_distr.
  rewrite upto_last_slash_rev_skip by now apply Forall_rev.
  reflexivity.
Qed.

Lemma no_slash_digits (s : pystr) :
  Forall (fun c => 48 <= c <= 57)%N s -> Forall no_slash s.
Proof. apply Forall_impl. unfold no_slash. intros; lia. Qed.

Lemma no_slash_str_of_int (z : Z) : Forall no_slash (str_of_int z).
Proof.
  unfold str_of_int. destruct (Z.to_int z).
  - apply no_slash_digits, Forall_digits_of_uint.
  - constructor; [discriminate | apply no_slash_digits, Forall_digits_of_uint].
Qed.

Lemma no_slash_pad (w : nat) (n : N) : Forall no_slash (pad w n).
Proof.
  unfold pad, zfill. apply Forall_app. split; [|apply no_slash_str_of_int].
  apply Forall_forall. intros c Hc. apply repeat_spec in Hc. now subst.
Qed.

Lemma no_slash_slugify (t : pystr) :
  Forall no_slash t -> Forall no_slash (slugify_spec t).
Proof.
  intros H. unfold slugify_spec. apply Forall_map, Forall_strip.
  apply Forall_forall. intros c Hc. apply filter_In in Hc as [Hc _].
  rewrite Forall_forall in H. specialize (H c Hc).
  destruct (c =? SP)%N; [discriminate | exact H].
Qed.

Lemma no_slash_literal (s : pystr) :
  forallb (fun c => negb (c =? 47)%N) s = true -> Forall no_slash s.
Proof.
  intros H. apply Forall_forall. intros c Hc.
  rewrite forallb_forall in H. specialize (H c Hc).
  now apply negb_true_iff, N.eqb_neq in H.
Qed.

End DirectoryFacts.

(** X10: the files of a page whose title has no slash are written directly
    in ./images, the directory of the journal file: that is the directory
    [os.makedirs] is asked to create before each write.  (A slash in the
    title is kept by [get_file_name] and opens a sub-directory.) *)
Theorem files_land_in_images (m : Metadata) (index : Z) (video : bool) :
  ~ In 47%N (title m) ->
  dirname (get_file_name m index video) = py "./images"
  /\ dirname (get_file_name m index video) = dirname JOURNAL_PATH.
Proof.
  intros Ht.
  assert (H : dirname (get_file_name m index video) = py "./images").
  { rewrite get_file_name_eq, strftime_timestamp.
    apply dirname_in_images.
    rewrite !Forall_app. repeat split;
      try apply no_slash_pad;
      try apply no_slash_str_of_int;
      try (apply no_slash_literal; reflexivity).
    - apply no_slash_slugify. apply Forall_forall. intros c Hc Heq.
      apply Ht. unfold no_slash in *. now subst.
    - destruct (0 <? index)%Z; [|constructor].
      rewrite Forall_app. split; [apply no_slash_literal; reflexivity|].
      apply no_slash_str_of_int.
    - destruct video; apply no_slash_literal; reflexivity. }
  split; [exact H | rewrite H; reflexivity].
Qed.

Lemma files_land_in_images_witness :
  dirname (get_file_name SampleExtra.metadata3 1 false) = py "./images"
  /\ dirname (get_file_name SampleExtra.metadata3 1 false) = dirname JOURNAL_PATH.
Proof.
  apply files_land_in_images.
  intros H. apply (proj1 (Forall_forall _ _)
                     (no_slash_literal (title SampleExtra.metadata3) eq_refl))
    in H.
  now apply H.
Defined.

(** ** How the steps of an iteration fail *)

Section StepErrors.
Variable isdigit : N -> bool.
Variable strptime : pystr -> option datetime.
Variable W : World.

Lemma fetch_errors id cfg : raises fetch_error (get_doc W id cfg).
Proof.
  intros e. rewrite get_doc_cases. cbn [snd].
  destruct (http_get W _ _) as [r|].
  - destruct ((400 <=? status_code r)%Z && (status_code r <? 600)%Z) eqn:E;
      [|discriminate].
    intros [= <-]. apply andb_prop in E as [E1 E2].
    apply Z.leb_le in E1. apply Z.ltb_lt in E2.
    right. exists (status_code r). now split.
  - intros [= <-]. now left.
Qed.

Lemma extraction_errors doc : raises extraction_error (get_metadata strptime doc).
Proof.
  assert (Hc : forall alerts, raises extraction_error (check_alerts alerts)).
  { intros alerts. destruct (check_alerts_cases alerts) as [-> | ->];
      first [apply raises_ret | apply raises_raise; now left]. }
  assert (Ht : forall tag, raises extraction_error (text_of tag)).
  { intros [t|]; [apply raises_ret | apply raises_raise; right; now left]. }
  unfold get_metadata, select, select_one.
  repeat first [ apply Hc | apply Ht | apply raises_ret | apply raises_emit
               | apply raises_bind; [|intros] ].
  destruct (search_authored _) as [[g1 g2]|];
    [|apply raises_raise; right; now left].
  destruct (strptime g2); [apply raises_ret | apply raises_raise].
  right; now right.
Qed.

Lemma navigation_errors doc cfg :
  raises navigation_error (get_next_observation_id isdigit doc cfg).
Proof.
  unfold get_next_observation_id, select_one, getitem.
  apply raises_bind; [|intros [a|]]; [| |apply raises_ret].
  - apply raises_bind; [apply raises_emit | intros; apply raises_ret].
  - apply raises_bind; [|intros href].
    + destruct (assoc _ _); [apply raises_ret | apply raises_raise; now left].
    + destruct (search_id _ _ _);
        [apply raises_ret | apply raises_raise; now right].
Qed.

(** X11: the steps of an iteration that do not touch the file system fail
    each in its own ways only.  Fetching a page raises the transport error
    or an HTTP error with a status from 400 to 599; extracting the metadata
    raises the session-expiry exception, [AttributeError] (an element or
    the caption pattern is missing) or [ValueError] (the date does not
    parse); finding the next page raises [KeyError] for "href" or the
    runtime error "observation id not found". *)
Theorem page_step_errors (id : pystr) (cfg : TapestryConfig)
    (doc : PageDocument) :
  raises fetch_error (get_doc W id cfg)
  /\ raises extraction_error (get_metadata strptime doc)
  /\ raises navigation_error (get_next_observation_id isdigit doc cfg).
Proof.
  split; [apply fetch_errors | split].
  - apply extraction_errors.
  - apply navigation_errors.
Qed.

End StepErrors.

(** ** The previous-page link and the page URL *)

Section LinkFacts.
Variable isdigit : N -> bool.
Variable strptime : pystr -> option datetime.
Variable W : World.

Lemma digits_prefix_app (id rest : pystr) :
  Forall (fun c => isdigit c = true) id ->
  digits_prefix isdigit (id ++ rest) = id ++ digits_prefix isdigit rest.
Proof.
  induction 1 as [|c id Hc _ IH]; [reflexivity|].
  cbn [app digits_prefix]. now rewrite Hc, IH.
Qed.

Lemma search_id_page_url (cfg : TapestryConfig) (id rest : pystr) :
  Forall (fun c => isdigit c = true) id ->
  digits_prefix isdigit rest = [] ->
  search_id isdigit (base_url cfg) (page_url cfg id ++ rest) = Some id.
Proof.
  intros Hid Hrest. rewrite search_id_unfold. unfold page_url.
  replace ((base_url cfg ++ py "/" ++ id) ++ rest)
    with ((base_url cfg ++ py "/") ++ id ++ rest)
    by now rewrite <- !app_assoc.
  rewrite startswith_app, skipn_length_app, (digits_prefix_app _ _ Hid), Hrest.
  now rewrite (app_nil_r id).
Qed.

(** X12: the URL that [get_doc] requests for an identifier made of digits
    is read back as that identifier: when the "previous" link of a page is
    that URL, possibly followed by text that does not start with a digit,
    [get_next_observation_id] returns the identifier. *)
Theorem previous_link_round_trip (doc : PageDocument) (cfg : TapestryConfig)
    (a : Tag) (id rest : pystr) :
  hd_error (doc "li.previous a"%string) = Some a ->
  assoc "href" (attrs a) = Some (page_url cfg id ++ rest) ->
  Forall (fun c => isdigit c = true) id ->
  digits_prefix isdigit rest = [] ->
  fst (get_doc W id cfg)
  = [HttpGet (page_url cfg id) (session_cookie cfg) (timeout cfg)]
  /\ get_next_observation_id isdigit doc cfg
     = ([Select "li.previous a"], Return (Some id)).
Proof.
  intros Ha Hhref Hid Hrest. split; [apply get_doc_trace|].
  rewrite (get_next_present isdigit doc cfg a _ Ha Hhref).
  now rewrite (search_id_page_url cfg id rest Hid Hrest).
Qed.

End LinkFacts.

Lemma previous_link_round_trip_witness :
  fst (get_doc Sample.W (py "2") Sample.config)
  = [HttpGet (page_url Sample.config (py "2")) (session_cookie Sample.config)
       (timeout Sample.config)]
  /\ get_next_observation_id Sample.isdigit Sample.page3 Sample.config
     = ([Select "li.previous a"], Return (Some (py "2"))).
Proof.
  apply (previous_link_round_trip Sample.isdigit Sample.W Sample.page3
           Sample.config (Sample.anchor (Sample.base ++ py "/2")) (py "2") []).
  - reflexivity.
  - reflexivity.
  - repeat constructor.
  - reflexivity.
Defined.

(** ** A page that links to itself *)

Section SelfLink.
Variable isdigit : N -> bool.
Variable strptime : pystr -> option datetime.
Variable W : World.

(** X13: the walk has no cycle detection.  When a page is fetched and
    processed and its "previous" link gives the identifier of the page
    itself, the loop requests that page again in every iteration and never
    ends: whatever the bound on the number of iterations, the loop has by
    then requested the page that many times, is still running, and no text
    file (so no journal) has been written. *)
Theorem self_link_never_ends (cfg : TapestryConfig) (id : pystr)
    (doc : PageDocument) (tg ts tn : list event) (section : pystr) :
  truthy id = true ->
  get_doc W id cfg = (tg, Return doc) ->
  save_media_for_page strptime W doc cfg = (ts, Return section) ->
  get_next_observation_id isdigit doc cfg = (tn, Return (Some id)) ->
  forall (fuel : nat) (md : pystr),
    snd (run_loop isdigit strptime W fuel cfg (Some id) md) = OutOfFuel
    /\ page_requests (fst (run_loop isdigit strptime W fuel cfg (Some id) md))
       = repeat (page_url cfg id) fuel
    /\ text_writes (fst (run_loop isdigit strptime W fuel cfg (Some id) md))
       = [].
Proof.
  intros Hid Hg Hs Hn. induction fuel as [|fuel IH]; intros md.
  - destruct id; [discriminate | now repeat split].
  - destruct (run_loop_page isdigit strptime W fuel cfg id md doc tg ts
                section Hid Hg Hs) as [Hm ->].
    rewrite Hn. cbn [snd fst].
    destruct (IH (md ++ section)) as (H1 & H2 & H3).
    destruct (page_trace_shows cfg id ts Hm) as (Hp & _ & Ht & _).
    rewrite page_requests_app, text_writes_app, Hp, Ht, H2, H3.
    now repeat split.
Qed.

End SelfLink.

Lemma self_link_never_ends_witness :
  snd (run_loop Sample.isdigit Sample.strptime SampleExtra.W_loop 5
         Sample.config (Some (py "3")) []) = OutOfFuel
  /\ page_requests
       (fst (run_loop Sample.isdigit Sample.strptime SampleExtra.W_loop 5
               Sample.config (Some (py "3")) []))
     = repeat (page_url Sample.config (py "3")) 5
  /\ text_writes
       (fst (run_loop Sample.isdigit Sample.strptime SampleExtra.W_loop 5
               Sample.config (Some (py "3")) []))
     = [].
Proof.
  refine (self_link_never_ends Sample.isdigit Sample.strptime SampleExtra.W_loop
           Sample.config (py "3") SampleExtra.page_loop
           (fst (get_doc SampleExtra.W_loop (py "3") Sample.config))
           (fst (save_media_for_page Sample.strptime SampleExtra.W_loop
                   SampleExtra.page_loop Sample.config))
           [Select "li.previous a"]
           (py "## Art Day!" ++ [LF; LF]
            ++ py "### Ms Smith, 2 May 2023 02:30PM" ++ [LF; LF]
            ++ py "We painted" ++ [LF; LF]) _ _ _ _ 5 []).
  - reflexivity.
  - vm_compute. reflexivity.
  - vm_compute. reflexivity.
  - vm_compute. reflexivity.
Defined.

(** ** Runs that end normally *)

Section CompletedRuns.
Variable isdigit : N -> bool.
Variable strptime : pystr -> option datetime.
Variable W : World.

Lemma loop_returns (fuel : nat) :
  forall (cfg : TapestryConfig) (o : option pystr) (md md' : pystr)
         (tr : list event),
    run_loop isdigit strptime W fuel cfg o md = (tr, Return md') ->
    exists pages : list Visit,
      (List.length pages <= fuel)%nat
      /\ Forall (visited strptime W cfg) pages
      /\ printed tr = map visit_id pages
      /\ page_requests tr = map (fun v => page_url cfg (visit_id v)) pages
      /\ text_writes tr = []
      /\ md' = md ++ List.concat (map visit_section pages).
Proof.
  induction fuel as [|fuel IH]; intros cfg o md md' tr H.
  - destruct o as [[|c i]|]; simpl in H; try discriminate;
      injection H as <- <-; exists []; cbn [map List.concat];
      rewrite (app_nil_r md); repeat split; auto.
  - destruct (truthy_opt o) eqn:Ho.
    2:{ rewrite run_loop_done in H by exact Ho. injection H as <- <-.
        exists []. cbn [map List.concat]. rewrite (app_nil_r md).
        repeat split; auto. simpl; lia. }
    destruct o as [[|c i]|]; try discriminate. cbn [run_loop] in H.
    apply bind_inv_return in H as (t0 & u & t1 & Hp & H & ->).
    injection Hp as <-.
    apply bind_inv_return in H as (tg & doc & t2 & Hg & H & ->).
    apply bind_inv_return in H as (ts & section & t3 & Hs & H & ->).
    apply bind_inv_return in H as (tn & next & t4 & Hn & H & ->).
    destruct (IH _ _ _ _ _ H) as (pages & Hlen & Hv & Hpr & Hrq & Htw & ->).
    exists (mkVisit (c :: i) doc section :: pages).
    pose proof (get_doc_trace W (c :: i) cfg) as Htg.
    rewrite Hg in Htg. cbn [fst] in Htg. subst tg.
    pose proof (get_next_trace isdigit doc cfg) as Htn.
    rewrite Hn in Htn. cbn [fst] in Htn. subst tn.
    pose proof (only_save_media strptime W doc cfg) as Hm.
    unfold only in Hm. rewrite Hs in Hm. cbn [fst] in Hm.
    destruct (media_events_silent ts Hm) as (Hm1 & Hm2 & Hm3).
    rewrite !printed_app, !page_requests_app, !text_writes_app.
    rewrite Hm1, Hm2, Hm3, Hpr, Hrq, Htw.
    split; [simpl; lia|]. split; [|now rewrite <- (app_assoc md)].
    constructor; [|exact Hv]. split; [cbn [visit_id visit_doc]; now rewrite Hg|].
    cbn [visit_doc visit_section].
    apply (save_media_section strptime W doc cfg). now rewrite Hs.
Qed.

(** X14: a run that ends normally has written exactly one text file, the
    journal, and it is the owner heading followed by one section per page
    requested, in the order of the requests: every identifier printed is
    the identifier of a page that was served, whose section is the entry
    of the metadata extracted from it.  The number of pages is at most the
    number of iterations. *)
Theorem completed_run_journal (fuel : nat) (cfg : TapestryConfig)
    (tr : list event) :
  run isdigit strptime W fuel cfg = (tr, Return tt) ->
  exists pages : list Visit,
    (List.length pages <= fuel)%nat
    /\ Forall (visited strptime W cfg) pages
    /\ printed tr = map visit_id pages
    /\ page_requests tr = map (fun v => page_url cfg (visit_id v)) pages
    /\ text_writes tr
       = [(JOURNAL_PATH,
           journal_heading cfg ++ List.concat (map visit_section pages))].
Proof.
  unfold run. fold (journal_heading cfg). intros H.
  apply bind_inv_return in H as (t1 & md & t2 & Hl & Hw & ->).
  unfold write_text in Hw.
  destruct (isdir_after W _ _); [|discriminate]. injection Hw as <-.
  destruct (loop_returns fuel _ _ _ _ _ Hl)
    as (pages & Hlen & Hv & Hpr & Hrq & Htw & ->).
  exists pages.
  rewrite printed_app, page_requests_app, text_writes_app, Hpr, Hrq, Htw.
  cbn. rewrite !app_nil_r. repeat split; auto.
Qed.

End CompletedRuns.

Lemma completed_run_journal_witness :
  exists pages : list Visit,
    (List.length pages <= 10)%nat
    /\ Forall (visited Sample.strptime Sample.W Sample.config) pages
    /\ printed (fst (run Sample.isdigit Sample.strptime Sample.W 10
                       Sample.config))
       = map visit_id pages
    /\ page_requests (fst (run Sample.isdigit Sample.strptime Sample.W 10
                             Sample.config))
       = map (fun v => page_url Sample.config (visit_id v)) pages
    /\ text_writes (fst (run Sample.isdigit Sample.strptime Sample.W 10
                           Sample.config))
       = [(JOURNAL_PATH,
           journal_heading Sample.config
           ++ List.concat (map visit_section pages))].
Proof.
  apply (completed_run_journal Sample.isdigit Sample.strptime Sample.W 10
           Sample.config).
  vm_compute. reflexivity.
Defined.

(** ** What every run shows *)

Lemma fst_bind {A B} (m : M A) (f : A -> M B) :
  fst (bind m f)
  = fst m ++ match snd m with Return a => fst (f a) | _ => [] end.
Proof.
  destruct m as [t [a|e|]]; simpl; [now destruct (f a) | |];
    now rewrite app_nil_r.
Qed.

Section Announced.
Variable isdigit : N -> bool.
Variable strptime : pystr -> option datetime.
Variable W : World.

Lemma loop_announces (fuel : nat) :
  forall (cfg : TapestryConfig) (o : option pystr) (md : pystr),
    page_requests (fst (run_loop isdigit strptime W fuel cfg o md))
    = map (page_url cfg) (printed (fst (run_loop isdigit strptime W fuel cfg o md))).
Proof.
  induction fuel as [|fuel IH]; intros cfg [[|c i]|] md; cbn [run_loop];
    try reflexivity.
  rewrite !fst_bind. cbn [emit fst snd]. rewrite get_doc_trace.
  rewrite !page_requests_app, !printed_app.
  change (page_requests [Print (c :: i)]) with (@nil pystr).
  change (printed [Print (c :: i)]) with [c :: i].
  cbn [app map]. unfold page_url at 1.
  destruct (snd (get_doc W (c :: i) cfg)) as [doc|e|]; try reflexivity.
  rewrite !fst_bind, !page_requests_app, !printed_app.
  destruct (media_events_silent _ (only_save_media strptime W doc cfg))
    as (-> & -> & _).
  cbn [app].
  destruct (snd (save_media_for_page strptime W doc cfg)) as [section|e|];
    try reflexivity.
  rewrite !fst_bind, !page_requests_app, !printed_app, get_next_trace.
  cbn [app page_requests printed flat_map].
  destruct (snd (get_next_observation_id isdigit doc cfg)) as [next|e|];
    try reflexivity.
  f_equal. apply IH.
Qed.

(** X15: in every run, whether it ends normally, fails or is still going,
    the pages requested are exactly the pages of the identifiers printed,
    in the same order: each iteration prints its identifier and then makes
    one page request, for that identifier, and nothing else is printed. *)
Theorem every_request_is_announced (fuel : nat) (cfg : TapestryConfig) :
  page_requests (fst (run isdigit strptime W fuel cfg))
  = map (page_url cfg) (printed (fst (run isdigit strptime W fuel cfg))).
Proof.
  unfold run, write_text.
  rewrite fst_bind, page_requests_app, printed_app, loop_announces.
  destruct (snd (run_loop _ _ _ _ _ _ _)); [destruct (isdir_after W _ _)| |];
    cbn; now rewrite !app_nil_r.
Qed.

End Announced.

(** ** From the environment to the first request *)

Section FirstRequest.
Variable isdigit : N -> bool.
Variable strptime : pystr -> option datetime.
Variable W : World.

Lemma from_env_configured (sc cv fo nm : pystr) :
  getenv W EnvVarNames.TAPESTRY_SCHOOL = Some sc ->
  getenv W EnvVarNames.TAPESTRY_COOKIE_VALUE = Some cv ->
  getenv W EnvVarNames.TAPESTRY_FIRST_OBSERVATION_ID = Some fo ->
  getenv W EnvVarNames.TAPESTRY_NAME = Some nm ->
  sc <> [] -> cv <> [] -> fo <> [] -> nm <> [] ->
  from_env W
  = ([], Return (mkConfig cv fo nm sc
                   (py "https://tapestryjournal.com/s/" ++ sc
                    ++ py "/observation") 60)).
Proof.
  intros H1 H2 H3 H4 N1 N2 N3 N4. unfold from_env.
  rewrite !get_required_env_value_cases, H1, H2, H3, H4.
  destruct sc; [contradiction|]. destruct cv; [contradiction|].
  destruct fo; [contradiction|]. destruct nm; [contradiction|]. reflexivity.
Qed.

Lemma fst_try_except {A} (m : M A) (handles : exn -> bool) (handler : M A) :
  exists rest, fst (try_except m handles handler) = fst m ++ rest.
Proof.
  destruct m as [t [a|e|]]; simpl; try (exists []; now rewrite app_nil_r).
  destruct (handles e); [|exists []; now rewrite app_nil_r].
  destruct handler as [t' r]. now exists t'.
Qed.

(** X16: with the four variables set, [main] starts by printing the first
    observation identifier and requesting
    https://tapestryjournal.com/s/<school>/observation/<identifier> with
    the cookie [tapestry_session] set to the configured cookie value and a
    timeout of 60 seconds; whatever else the run does comes after. *)
Theorem main_first_request (fuel : nat) (sc cv fo nm : pystr) :
  getenv W EnvVarNames.TAPESTRY_SCHOOL = Some sc ->
  getenv W EnvVarNames.TAPESTRY_COOKIE_VALUE = Some cv ->
  getenv W EnvVarNames.TAPESTRY_FIRST_OBSERVATION_ID = Some fo ->
  getenv W EnvVarNames.TAPESTRY_NAME = Some nm ->
  sc <> [] -> cv <> [] -> fo <> [] -> nm <> [] ->
  exists rest,
    fst (main isdigit strptime W (S fuel))
    = Print fo
      :: HttpGet (py "https://tapestryjournal.com/s/" ++ sc
                  ++ py "/observation/" ++ fo)
           [(py "tapestry_session", cv)] 60
      :: rest.
Proof.
  intros H1 H2 H3 H4 N1 N2 N3 N4. unfold main.
  rewrite (from_env_configured sc cv fo nm H1 H2 H3 H4 N1 N2 N3 N4).
  cbn [bind]. destruct (fst_try_except
    (run isdigit strptime W (S fuel)
       (mkConfig cv fo nm sc
          (py "https://tapestryjournal.com/s/" ++ sc ++ py "/observation") 60))
    is_LoggedOutException
    (bind (emit (Print (py "ERROR: You appear to be logged out. Check cookie value.")))
       (fun _ => raise (SystemExit 1)))) as [rest1 Hrest1].
  destruct (try_except _ _ _) as [t r] eqn:Et. cbn [fst] in *.
  rewrite app_nil_l. subst t.
  unfold run. rewrite fst_bind. cbn [first_observation_id name].
  destruct fo as [|c i]; [contradiction|]. cbn [run_loop].
  rewrite !fst_bind. cbn [emit fst snd]. rewrite get_doc_trace.
  cbn [base_url cookie_value timeout app].
  rewrite <- !app_assoc. eexists. reflexivity.
Qed.

End FirstRequest.

Lemma main_first_request_witness :
  exists rest,
    fst (main Sample.isdigit Sample.strptime Sample.W 1)
    = Print (py "3")
      :: HttpGet (py "https://tapestryjournal.com/s/" ++ py "oak"
                  ++ py "/observation/" ++ py "3")
           [(py "tapestry_session", py "secret")] 60
      :: rest.
Proof.
  apply (main_first_request Sample.isdigit Sample.strptime Sample.W 0
           (py "oak") (py "secret") (py "3") (py "Alice"));
    first [reflexivity | discriminate].
Defined.

(** ** The directory of the journal *)

Lemma upto_last_slash_images (x : pystr) :
  exists t,
    upto_last_slash_rev (x ++ rev (py "./images/")) = t ++ rev (py "./images/").
Proof.
  induction x as [|c x [t IH]]; [now exists []|].
  cbn [app upto_last_slash_rev]. destruct (c =? 47)%N.
  - now exists (c :: x).
  - now exists t.
Qed.

Lemma rstrip_slash_images (t : pystr) :
  rstrip_slash_rev (t ++ rev (py "./images/")) = rev (py "./images")
  \/ exists u,
       rstrip_slash_rev (t ++ rev (py "./images/")) = u ++ rev (py "./images/").
Proof.
  induction t as [|c t IH]; [now left|].
  cbn [app rstrip_slash_rev]. destruct (c =? 47)%N; [exact IH|].
  right. now exists (c :: t).
Qed.

(** Whatever the title, the directory of a derived file name is ./images
    or lies below it. *)
Lemma dirname_under_images (m : Metadata) (i : Z) (v : bool) :
  under (py "./images") (dirname (get_file_name m i v)) = true.
Proof.
  rewrite get_file_name_eq. unfold dirname, IMAGES_DIR.
  rewrite rev_app_distr.
  destruct (upto_last_slash_images
              (rev (strftime (date m) "%Y-%m-%d-%H-%M" ++ py "-"
                    ++ slugify_spec (title m)
                    ++ (if (0 <? i)%Z then py "-" ++ str_of_int i else [])
                    ++ (if v then py ".mp4" else py ".jpeg"))))
    as [t ->].
  assert (Hf : forallb (fun c => (c =? 47)%N) (t ++ rev (py "./images/"))
               = false).
  { rewrite forallb_app. apply andb_false_r. }
  rewrite Hf.
  destruct (rstrip_slash_images t) as [-> | [u ->]]; [reflexivity|].
  rewrite rev_app_distr.
  change (rev (rev (py "./images/"))) with (py "./images" ++ py "/").
  unfold under. rewrite startswith_app. apply orb_true_r.
Qed.

Lemma dirs_follow_files_quiet (tr : list event) :
  made_dirs tr = [] -> byte_writes tr = [] -> dirs_follow_files tr.
Proof. intros H1 H2. unfold dirs_follow_files. rewrite H1, H2. now split. Qed.

Lemma dirs_follow_files_app (a b : list event) :
  dirs_follow_files a -> dirs_follow_files b -> dirs_follow_files (a ++ b).
Proof.
  intros [Ha1 Ha2] [Hb1 Hb2]. unfold dirs_follow_files.
  rewrite made_dirs_app, byte_writes_app, map_app, Ha1, Hb1.
  split; [reflexivity | now apply Forall_app].
Qed.

Lemma dirs_follow_files_bind {A B} (m : M A) (f : A -> M B) :
  dirs_follow_files (fst m) -> (forall a, dirs_follow_files (fst (f a))) ->
  dirs_follow_files (fst (bind m f)).
Proof.
  intros Hm Hf. rewrite fst_bind. apply dirs_follow_files_app; [exact Hm|].
  destruct (snd m); [apply Hf | |]; now apply dirs_follow_files_quiet.
Qed.

Section JournalDirectory.
Variable isdigit : N -> bool.
Variable strptime : pystr -> option datetime.
Variable W : World.

Lemma dirs_follow_save_each video idx items m cfg :
  dirs_follow_files (fst (save_each W video idx items m cfg)).
Proof.
  revert idx. induction items as [|item rest IH]; intros idx;
    [now apply dirs_follow_files_quiet|].
  cbn [save_each]. apply dirs_follow_files_bind; [|intros url].
  { unfold getitem. destruct (assoc _ _); now apply dirs_follow_files_quiet. }
  apply dirs_follow_files_bind; [|intros r].
  { unfold requests_get. rewrite fst_bind. cbn [emit fst snd].
    destruct (http_get W url []); now apply dirs_follow_files_quiet. }
  rewrite !fst_bind. cbn [emit fst snd app].
  apply (dirs_follow_files_app
           [MakeDirs (dirname (get_file_name m idx video));
            WriteBytes (get_file_name m idx video) (content r)]);
    [|apply IH].
  split; [reflexivity|]. repeat constructor. now exists m, idx, video.
Qed.

Lemma dirs_follow_save_media doc cfg :
  dirs_follow_files (fst (save_media_for_page strptime W doc cfg)).
Proof.
  unfold save_media_for_page, save_images_for_page, save_videos_for_page.
  apply dirs_follow_files_bind;
    [now apply dirs_follow_files_quiet | intros images].
  apply dirs_follow_files_bind;
    [now apply dirs_follow_files_quiet | intros videos].
  apply dirs_follow_files_bind; [|intros m].
  { destruct (selects_are_silent _ (only_selects_get_metadata strptime doc))
      as (H1 & _ & H2 & _).
    now apply dirs_follow_files_quiet. }
  apply dirs_follow_files_bind; [apply dirs_follow_save_each | intros _].
  apply dirs_follow_files_bind; [apply dirs_follow_save_each | intros _].
  now apply dirs_follow_files_quiet.
Qed.

Lemma dirs_follow_loop (fuel : nat) :
  forall cfg o md,
    dirs_follow_files (fst (run_loop isdigit strptime W fuel cfg o md)).
Proof.
  induction fuel as [|fuel IH]; intros cfg [[|c i]|] md; cbn [run_loop];
    try (now apply dirs_follow_files_quiet).
  apply dirs_follow_files_bind; [now apply dirs_follow_files_quiet | intros _].
  apply dirs_follow_files_bind; [|intros doc].
  { rewrite get_doc_trace. now apply dirs_follow_files_quiet. }
  apply dirs_follow_files_bind; [apply dirs_follow_save_media | intros section].
  apply dirs_follow_files_bind; [|intros next; apply IH].
  rewrite get_next_trace. now apply dirs_follow_files_quiet.
Qed.

Lemma images_made (tr : list event) :
  dirs_follow_files tr ->
  existsb (under (py "./images")) (made_dirs tr)
  = match byte_writes tr with [] => false | _ :: _ => true end.
Proof.
  intros [H1 H2]. rewrite H1.
  destruct (byte_writes tr) as [|f l]; [reflexivity|].
  apply Forall_inv in H2 as (m & i & v & Hf).
  cbn [map existsb]. now rewrite Hf, dirname_under_images.
Qed.

(** X17: [run] never creates the directory of the journal.  When the walk
    ends normally and has saved at least one asset, the directory ./images
    exists by then (the download loops create it) and the journal is
    written.  When the walk has saved no asset, the journal is written only
    if ./images was there when the program started; otherwise the final
    write raises [FileNotFoundError] and the journal is lost. *)
Theorem journal_needs_images_directory (fuel : nat) (cfg : TapestryConfig)
    (tr : list event) (md : pystr) :
  run_loop isdigit strptime W fuel cfg (Some (first_observation_id cfg))
    (journal_heading cfg) = (tr, Return md) ->
  run isdigit strptime W fuel cfg
  = match byte_writes tr with
    | _ :: _ => (tr ++ [WriteText JOURNAL_PATH md], Return tt)
    | [] =>
        if isdir W (py "./images")
        then (tr ++ [WriteText JOURNAL_PATH md], Return tt)
        else (tr, Raise FileNotFoundError)
    end.
Proof.
  intros Hl.
  pose proof (dirs_follow_loop fuel cfg (Some (first_observation_id cfg))
                (journal_heading cfg)) as Ht.
  unfold run, write_text, isdir_after. fold (journal_heading cfg).
  rewrite Hl in *. cbn [fst] in *.
  change (dirname JOURNAL_PATH) with (py "./images").
  rewrite (images_made tr Ht).
  destruct (byte_writes tr) as [|f l].
  - rewrite orb_false_r. destruct (isdir W (py "./images")); cbn;
      now rewrite ?app_nil_r.
  - rewrite orb_true_r. reflexivity.
Qed.

End JournalDirectory.

Lemma journal_needs_images_directory_witness :
  run Sample.isdigit Sample.strptime Sample.W_bare 5 Sample.config
  = (fst (run_loop Sample.isdigit Sample.strptime Sample.W_bare 5
            Sample.config (Some (py "3")) (journal_heading Sample.config)),
     Raise FileNotFoundError).
Proof.
  refine (journal_needs_images_directory Sample.isdigit Sample.strptime
            Sample.W_bare 5 Sample.config
            (fst (run_loop Sample.isdigit Sample.strptime Sample.W_bare 5
                    Sample.config (Some (py "3"))
                    (journal_heading Sample.config)))
            (journal_heading Sample.config
             ++ Sample.section_of Sample.W_bare Sample.page_bare) _).
  vm_compute. reflexivity.
Defined.
